(** * RedInk image generators: ModelScope (submit and poll) and Replicate (direct call)

    A shallow embedding of [backend/generators/modelscope.py] and
    [backend/generators/replicate_gen.py].  The Python code talks to the
    network, reads the clock, sleeps and logs; here these effects are explicit:
    a generator is a function from a [world] to a result and a new [world],
    the replies of the outside world come from an [Env] of oracles indexed by
    the number of the call, and every effect is recorded in a trace. *)

From Stdlib Require Import ZArith List Lia.
From Stdlib Require Import Strings.String Strings.Ascii Strings.Byte.
From Stdlib Require Import Floats.PrimFloat Floats.FloatAxioms Floats.SpecFloat Floats.FloatOps.
From stdpp Require Import base option list gmap strings pretty.

Local Open Scope Z_scope.

(** ** Python values *)

(** A Python [str] is a sequence of code points: [len] and slicing count code
    points, not bytes, and the prompts of this application are mostly Chinese. *)
Abbreviation str := (list N).

(** Decoding of the UTF-8 bytes of a literal of this file into code points. *)
Fixpoint utf8_decode (bs : list N) : str :=
  match bs with
  | [] => []
  | b0 :: r0 =>
    if (b0 <? 0x80)%N then b0 :: utf8_decode r0 else
    match r0 with
    | [] => [b0]
    | b1 :: r1 =>
      if (b0 <? 0xE0)%N then
        N.lor (N.shiftl (N.land b0 0x1F) 6) (N.land b1 0x3F) :: utf8_decode r1
      else
      match r1 with
      | [] => [b0; b1]
      | b2 :: r2 =>
        if (b0 <? 0xF0)%N then
          N.lor (N.shiftl (N.land b0 0x0F) 12)
            (N.lor (N.shiftl (N.land b1 0x3F) 6) (N.land b2 0x3F))
          :: utf8_decode r2
        else
        match r2 with
        | [] => [b0; b1; b2]
        | b3 :: r3 =>
          N.lor (N.shiftl (N.land b0 0x07) 18)
            (N.lor (N.shiftl (N.land b1 0x3F) 12)
               (N.lor (N.shiftl (N.land b2 0x3F) 6) (N.land b3 0x3F)))
          :: utf8_decode r3
        end
      end
    end
  end.

(** A string literal of the source. *)
Definition lit (s : string) : str :=
  utf8_decode (map N_of_ascii (list_ascii_of_string s)).

(** What the code handles dynamically: decoded JSON, keyword arguments, the
    output of the remote model.  [VObj s] is an object of any other class
    whose [str()] is [s] (a file handle of the Replicate client, say). *)
#[warnings="-register-all"]
Inductive value :=
| VNone
| VBool (b : bool)
| VInt (z : Z)
| VFloat (f : float)
| VStr (s : str)
| VList (l : list value)
| VDict (d : gmap str value)
| VObj (s : str).

Definition type_name (v : value) : str :=
  match v with
  | VNone => lit "NoneType"
  | VBool _ => lit "bool"
  | VInt _ => lit "int"
  | VFloat _ => lit "float"
  | VStr _ => lit "str"
  | VList _ => lit "list"
  | VDict _ => lit "dict"
  | VObj _ => lit "object"
  end.

(** [v == "..."] for a string literal on the right. *)
Definition py_eq_str (v : value) (s : str) : bool :=
  match v with
  | VStr t => bool_decide (t = s)
  | _ => false
  end.

(** [bool(v)] for the values a credential can take. *)
Definition truthy (v : option str) : bool :=
  match v with
  | None => false
  | Some [] => false
  | Some (_ :: _) => true
  end.

(** [s.endswith('/')] *)
Definition endswith_slash (s : str) : bool :=
  match last s with
  | Some c => bool_decide (c = 47%N)
  | None => false
  end.

(** ** Text as bytes *)

(** A code point of the surrogate range, which UTF-8 cannot encode. *)
Definition is_surrogate (c : N) : bool := (0xD800 <=? c)%N && (c <=? 0xDFFF)%N.

Definition has_surrogate (s : str) : bool := existsb is_surrogate s.

Definition byte_of (n : N) : byte := default Byte.x00 (Byte.of_N n).

(** The UTF-8 bytes of a code point (of at most 0x10FFFF, as in a [str]). *)
Definition utf8_char (c : N) : list byte :=
  if (c <? 0x80)%N then [byte_of c]
  else if (c <? 0x800)%N then
    [byte_of (0xC0 + c / 64); byte_of (0x80 + c mod 64)]
  else if (c <? 0x10000)%N then
    [byte_of (0xE0 + c / 4096); byte_of (0x80 + (c / 64) mod 64);
     byte_of (0x80 + c mod 64)]
  else
    [byte_of (0xF0 + c / 262144); byte_of (0x80 + (c / 4096) mod 64);
     byte_of (0x80 + (c / 64) mod 64); byte_of (0x80 + c mod 64)].

(** The bytes [encode_utf8] gives for a string without surrogates. *)
Definition utf8_bytes (s : str) : list byte := flat_map utf8_char s.

(** The number of surrogates at the front of [s]. *)
Fixpoint surrogate_run (s : str) : nat :=
  match s with
  | c :: r => if is_surrogate c then S (surrogate_run r) else O
  | [] => O
  end.

(** The first surrogate of [s]: its position counted from [i], the code
    point, and the length of the run of surrogates it starts. *)
Fixpoint first_surrogate (s : str) (i : nat) : option (nat * N * nat) :=
  match s with
  | [] => None
  | c :: r =>
    if is_surrogate c then Some (i, c, S (surrogate_run r))
    else first_surrogate r (S i)
  end.

Definition hex_digit (n : N) : N := if (n <? 10)%N then (48 + n)%N else (87 + n)%N.

(** Four lowercase hexadecimal digits, as ['%04x'] prints them. *)
Definition hex4 (c : N) : str :=
  [hex_digit (c / 4096 mod 16); hex_digit (c / 256 mod 16);
   hex_digit (c / 16 mod 16); hex_digit (c mod 16)]%N.

(** ** JSON text *)

(** [json.dumps(s, ensure_ascii=False)] escapes the quote, the backslash and
    the control characters; every other character stays as it is. *)
Definition json_escape_char (c : N) : str :=
  if (c =? 34)%N then [92; 34]%N
  else if (c =? 92)%N then [92; 92]%N
  else if (c =? 10)%N then [92; 110]%N
  else if (c =? 13)%N then [92; 114]%N
  else if (c =? 9)%N then [92; 116]%N
  else if (c =? 8)%N then [92; 98]%N
  else if (c =? 12)%N then [92; 102]%N
  else if (c <? 32)%N then [92; 117]%N ++ hex4 c
  else [c].

Definition json_string (s : str) : str :=
  [34%N] ++ flat_map json_escape_char s ++ [34%N].

(** [sep.join(parts)] *)
Fixpoint join (sep : str) (parts : list str) : str :=
  match parts with
  | [] => []
  | [p] => p
  | p :: rest => p ++ sep ++ join sep rest
  end.

(** [json.dumps(d, ensure_ascii=False)] for a dict of strings, in the order
    of insertion. *)
Definition json_dumps (d : list (str * str)) : str :=
  lit "{"
  ++ join (lit ", ")
       (map (fun kv => json_string (fst kv) ++ lit ": " ++ json_string (snd kv)) d)
  ++ lit "}".

(** ** Exceptions *)

(** The classes of the exceptions that occur; all are subclasses of
    [Exception], so [except Exception] catches every one of them. *)
Inductive exc_class :=
| ValueError
| UnicodeEncodeError
| TimeoutError
| RuntimeError
| ImportError
| KeyError
| IndexError
| TypeError
| AttributeError
| PlainException
(* requests.exceptions: RequestException and its subclasses *)
| RequestException
| HTTPError
| ConnectionError
| Timeout
| JSONDecodeError
(* any other subclass of Exception, by name *)
| OtherException (name : str).

(** [exn_msg] is [str(e)]; [exn_response_text] is [e.response.text] when the
    exception carries a response. *)
Record exn := Exn {
  exn_class : exc_class;
  exn_msg : str;
  exn_response_text : option str
}.

Definition mk_exn (c : exc_class) (m : str) : exn := Exn c m None.

(** [isinstance(e, requests.exceptions.RequestException)] *)
Definition is_RequestException (e : exn) : bool :=
  match exn_class e with
  | RequestException | HTTPError | ConnectionError | Timeout | JSONDecodeError => true
  | _ => false
  end.

(** ** The outside world *)

Inductive http_method := GET | POST.

Record request := Request {
  req_method : http_method;
  req_url : value;
  req_headers : gmap str str;
  req_data : option (list byte);

  req_timeout : Z
}.

(** A [requests.Response]: what [.json()] gives is a field, the decoder is
    not modelled; [resp_http_error] is the text of the [HTTPError] that
    [raise_for_status] raises for this response. *)
Record response := Response {
  status_code : Z;
  resp_text : str;
  resp_content : list byte;
  resp_json : exn + value;
  resp_http_error : str
}.

Inductive http_outcome :=
| Reply (r : response)
| Fails (e : exn).

Inductive level := INFO | WARNING | ERROR.

Inductive event :=
| EvHttp (r : request)
| EvTime (t : float)
| EvSleep (d : float)
| EvLog (l : level) (msg : str)
| EvRun (token : option str) (model : str) (input : gmap str value).

(** The oracles: the reply to the k-th HTTP request of a run, the k-th reading
    of [time.time()], the result of [client.run], whether the [replicate]
    package could be imported, and Python's [str()] on floats and containers. *)
Record Env := {
  http : nat -> request -> http_outcome;
  time_time : nat -> float;
  client_run : option str -> str -> gmap str value -> exn + value;
  replicate_installed : bool;
  py_repr : value -> str
}.

(** The state threaded through a run; the trace has the latest event first. *)
Record world := World {
  http_calls : nat;
  clock_reads : nat;
  trace : list event
}.

Definition init_world : world := World 0 0 [].

(** ** The monad of effects and exceptions *)

(** [Spin]: the polling loop was still running when the fuel ran out. *)
Inductive result (A : Type) :=
| Ret (a : A)
| Raise (e : exn)
| Spin.
Arguments Ret {A} a.
Arguments Raise {A} e.
Arguments Spin {A}.

Definition M (A : Type) : Type := world -> result A * world.

Definition ret {A} (a : A) : M A := fun w => (Ret a, w).

Definition raise {A} (e : exn) : M A := fun w => (Raise e, w).

Definition bind {A B} (m : M A) (k : A -> M B) : M B :=
  fun w =>
    match m w with
    | (Ret a, w') => k a w'
    | (Raise e, w') => (Raise e, w')
    | (Spin, w') => (Spin, w')
    end.

Notation "x <- m ;; k" := (bind m (fun x => k))
  (at level 100, m at next level, right associativity).
Notation "m ;;; k" := (bind m (fun _ => k))
  (at level 100, right associativity).

(** [try: m  except C as e: h e], where [handles e] is [isinstance(e, C)]. *)
Definition try_except {A} (m : M A) (handles : exn -> bool) (h : exn -> M A) : M A :=
  fun w =>
    match m w with
    | (Raise e, w') => if handles e then h e w' else (Raise e, w')
    | other => other
    end.

(** [while True: body]; the body gives [Some a] when it executes [return a]
    and [None] when it reaches its end. *)
Fixpoint while_true {A} (fuel : nat) (body : M (option A)) : M A :=
  fun w =>
    match fuel with
    | O => (Spin, w)
    | S fuel' =>
      match body w with
      | (Ret (Some a), w') => (Ret a, w')
      | (Ret None, w') => while_true fuel' body w'
      | (Raise e, w') => (Raise e, w')
      | (Spin, w') => (Spin, w')
      end
    end.

Definition emit (ev : event) : M unit :=
  fun w => (Ret tt, World (http_calls w) (clock_reads w) (ev :: trace w)).

Definition log (l : level) (msg : str) : M unit := emit (EvLog l msg).

(** [time.sleep(d)] *)
Definition sleep (d : float) : M unit := emit (EvSleep d).

Section Effects.
Variable env : Env.

(** [time.time()] *)
Definition read_clock : M float :=
  fun w =>
    let t := time_time env (clock_reads w) in
    (Ret t, World (http_calls w) (S (clock_reads w)) (EvTime t :: trace w)).

(** [requests.get] and [requests.post] *)
Definition send (r : request) : M response :=
  fun w =>
    let w' := World (S (http_calls w)) (clock_reads w) (EvHttp r :: trace w) in
    match http env (http_calls w) r with
    | Reply resp => (Ret resp, w')
    | Fails e => (Raise e, w')
    end.

(** [client.run(model, input=...)] on [replicate.Client(api_token=token)] *)
Definition run_model (token : option str) (model : str) (input : gmap str value)
  : M value :=
  fun w =>
    let w' := World (http_calls w) (clock_reads w) (EvRun token model input :: trace w) in
    match client_run env token model input with
    | inr v => (Ret v, w')
    | inl e => (Raise e, w')
    end.

(** [str(v)], as the f-strings of the code apply it *)
Definition py_str (v : value) : str :=
  match v with
  | VNone => lit "None"
  | VBool true => lit "True"
  | VBool false => lit "False"
  | VInt z => lit (pretty z)
  | VStr s => s
  | VObj s => s
  | _ => py_repr env v
  end.

End Effects.

(** [response.raise_for_status()] *)
Definition raise_for_status (r : response) : M unit :=
  if (400 <=? status_code r) && (status_code r <? 600)
  then raise (Exn HTTPError (resp_http_error r) (Some (resp_text r)))
  else ret tt.

(** [response.json()] *)
Definition json (r : response) : M value :=
  match resp_json r with
  | inr v => ret v
  | inl e => raise e
  end.

(** [data.get(key)] and [data.get(key, default)] *)
Definition py_get (data : value) (key : str) (dflt : value) : M value :=
  match data with
  | VDict d => ret (default dflt (d !! key))
  | _ => raise (mk_exn AttributeError
                  (lit "'" ++ type_name data ++ lit "' object has no attribute 'get'"))
  end.

Definition not_subscriptable (v : value) : exn :=
  mk_exn TypeError (lit "'" ++ type_name v ++ lit "' object is not subscriptable").

(** [data[key]] for a string key *)
Definition py_getitem (data : value) (key : str) : M value :=
  match data with
  | VDict d =>
    match d !! key with
    | Some v => ret v
    | None => raise (mk_exn KeyError (lit "'" ++ key ++ lit "'"))
    end
  | VList _ =>
    raise (mk_exn TypeError (lit "list indices must be integers or slices, not str"))
  | VStr _ =>
    raise (mk_exn TypeError (lit "string indices must be integers, not 'str'"))
  | _ => raise (not_subscriptable data)
  end.

(** [v[0]] *)
Definition py_first (v : value) : M value :=
  match v with
  | VList (x :: _) => ret x
  | VList [] => raise (mk_exn IndexError (lit "list index out of range"))
  | VStr (c :: _) => ret (VStr [c])
  | VStr [] => raise (mk_exn IndexError (lit "string index out of range"))
  | VDict _ => raise (mk_exn KeyError (lit "0"))
  | _ => raise (not_subscriptable v)
  end.

(** The text of the [UnicodeEncodeError] for the surrogates found. *)
Definition surrogates_not_allowed (found : nat * N * nat) : str :=
  let '(i, c, n) := found in
  match n with
  | 1%nat =>
    lit "'utf-8' codec can't encode character '\u" ++ hex4 c
    ++ lit "' in position " ++ lit (pretty i) ++ lit ": surrogates not allowed"
  | _ =>
    lit "'utf-8' codec can't encode characters in position " ++ lit (pretty i)
    ++ lit "-" ++ lit (pretty (i + n - 1)%nat) ++ lit ": surrogates not allowed"
  end.

(** [s.encode('utf-8')] *)
Definition encode_utf8 (s : str) : M (list byte) :=
  match first_surrogate s 0 with
  | None => ret (utf8_bytes s)
  | Some found => raise (mk_exn UnicodeEncodeError (surrogates_not_allowed found))
  end.

(** ** backend/generators/modelscope.py *)

Module ModelScope.

(** The fields of a [ModelScopeGenerator]. [api_key] is stored by the base
    class from the config; the numbers of the config are taken as floats. *)
Record generator := Generator {
  api_key : option str;
  base_url : str;
  model : str;
  polling_interval : float;
  timeout : float
}.

(** [__init__]: the defaults of the fields the config does not give. *)
Definition init (key base mdl : option str) (interval tmo : option float) : generator :=
  Generator key
    (default (lit "https://api-inference.modelscope.cn/") base)
    (default (lit "Tongyi-MAI/Z-Image-Turbo") mdl)
    (default 2%float interval)
    (default 60%float tmo).

Definition validate_config (g : generator) : M bool :=
  if negb (truthy (api_key g))
  then raise (mk_exn ValueError (lit "ModelScope API Key is required"))
  else ret true.

Definition MAX_PROMPT_LENGTH : nat := 1800.

(** [f"Bearer {self.api_key}"] *)
Definition bearer (g : generator) : str :=
  lit "Bearer " ++ match api_key g with Some k => k | None => lit "None" end.

Definition submit_headers (g : generator) : gmap str str :=
  {[ lit "Authorization" := bearer g;
     lit "Content-Type" := lit "application/json";
     lit "X-ModelScope-Async-Mode" := lit "true" ]}.

Definition poll_headers (g : generator) : gmap str str :=
  {[ lit "Authorization" := bearer g;
     lit "Content-Type" := lit "application/json";
     lit "X-ModelScope-Task-Type" := lit "image_generation" ]}.

(** [self.base_url if self.base_url.endswith('/') else f"{self.base_url}/"] *)
Definition slashed (g : generator) : str :=
  if endswith_slash (base_url g) then base_url g else base_url g ++ lit "/".

(** The prompt after the length check, with the warning when it is cut. *)
Definition check_prompt (prompt : str) : M str :=
  if (MAX_PROMPT_LENGTH <? length prompt)%nat then
    log WARNING (lit "Prompt length (" ++ lit (pretty (length prompt))
                 ++ lit ") exceeds limit (" ++ lit (pretty MAX_PROMPT_LENGTH)
                 ++ lit "). Truncating...") ;;;
    ret (take MAX_PROMPT_LENGTH prompt)
  else ret prompt.

(** The dict [payload], lines 62 to 65, in the order of its keys. *)
Definition payload (g : generator) (prompt : str) : list (str * str) :=
  [(lit "model", model g); (lit "prompt", prompt)].

(** The POST of line 73 with the body [data]. *)
Definition post_request (g : generator) (data : list byte) : request :=
  Request POST (VStr (slashed g ++ lit "v1/images/generations"))
    (submit_headers g) (Some data) 30.

(** The POST that carries [prompt]. *)
Definition submit_request (g : generator) (prompt : str) : request :=
  post_request g (utf8_bytes (json_dumps (payload g prompt))).

Section WithEnv.
Variable env : Env.

Definition status_request (g : generator) (task_id : value) : request :=
  Request GET (VStr (slashed g ++ lit "v1/tasks/" ++ py_str env task_id))
    (poll_headers g) None 10.

Definition image_request (output_url : value) : request :=
  Request GET output_url ∅ None 30.

(** The [try] block of the submission, lines 72 to 91. *)
Definition submit (g : generator) (prompt : str) : M value :=
  try_except
    (data <- encode_utf8 (json_dumps (payload g prompt)) ;;
     response <- send env (post_request g data) ;;
     (if bool_decide (status_code response ≠ 200)
      then log ERROR (lit "ModelScope API Error: "
                      ++ py_str env (VInt (status_code response))
                      ++ lit " - " ++ resp_text response)
      else ret tt) ;;;
     raise_for_status response ;;;
     body <- json response ;;
     task_id <- py_getitem body (lit "task_id") ;;
     log INFO (lit "Task submitted successfully, ID: " ++ py_str env task_id) ;;;
     ret task_id)
    is_RequestException
    (fun e =>
       log ERROR (lit "Failed to submit task: " ++ exn_msg e) ;;;
       (match exn_response_text e with
        | Some text => log ERROR (lit "Error Response Content: " ++ text)
        | None => ret tt
        end) ;;;
       raise e).

(** One turn of the [while True] loop, lines 96 to 134. *)
Definition poll_once (g : generator) (task_id : value) (start_time : float)
  : M (option (list byte)) :=
  t <- read_clock env ;;
  if PrimFloat.ltb (timeout g) (PrimFloat.sub t start_time) then
    raise (mk_exn TimeoutError
             (lit "Image generation timed out after "
              ++ py_str env (VFloat (timeout g)) ++ lit " seconds"))
  else
    try_except
      (result_response <- send env (status_request g task_id) ;;
       raise_for_status result_response ;;;
       data <- json result_response ;;
       task_status <- py_get data (lit "task_status") VNone ;;
       if py_eq_str task_status (lit "SUCCEED") then
         images <- py_getitem data (lit "output_images") ;;
         output_url <- py_first images ;;
         log INFO (lit "Task succeeded, downloading image...") ;;;
         image_response <- send env (image_request output_url) ;;
         raise_for_status image_response ;;;
         ret (Some (resp_content image_response))
       else if py_eq_str task_status (lit "FAILED") then
         error_msg <- py_get data (lit "message") (VStr (lit "Unknown error")) ;;
         log ERROR (lit "Task failed: " ++ py_str env error_msg) ;;;
         raise (mk_exn RuntimeError
                  (lit "Image generation failed: " ++ py_str env error_msg))
       else
         sleep (polling_interval g) ;;;
         ret None)
      is_RequestException
      (fun e =>
         log ERROR (lit "Error while polling task status: " ++ exn_msg e) ;;;
         sleep (polling_interval g) ;;;
         ret None).

Definition generate_image (g : generator) (prompt : str) (fuel : nat)
  : M (list byte) :=
  validate_config g ;;;
  prompt <- check_prompt prompt ;;
  log INFO (lit "Submitting ModelScope task for model: " ++ model g) ;;;
  task_id <- submit g prompt ;;
  start_time <- read_clock env ;;
  while_true fuel (poll_once g task_id start_time).

End WithEnv.

Definition get_supported_sizes (g : generator) : list str := [lit "1024x1024"].

Definition get_supported_aspect_ratios (g : generator) : list str := [lit "1:1"].

End ModelScope.

(** ** backend/generators/replicate_gen.py *)

Module Replicate.

Record generator := Generator {
  api_key : option str;
  model : str;
  default_steps : Z;
  default_guidance : float
}.

(** [__init__]; its warning about a missing [replicate] package is a log
    record only and is left out. *)
Definition init (key mdl : option str) : generator :=
  Generator key
    (default (lit "prunaai/z-image-turbo:0870559624690b3709350177b9d521d84e54d297026d725358b8f73193429e91") mdl)
    9 0%float.

Definition validate_config (g : generator) : M bool :=
  ret (truthy (api_key g)).

Definition ratios : gmap str (Z * Z) :=
  {[ lit "1:1" := (1024, 1024);
     lit "3:4" := (896, 1152);
     lit "4:3" := (1152, 896);
     lit "9:16" := (768, 1344);
     lit "16:9" := (1344, 768) ]}.

Definition _get_dimensions (aspect_ratio : str) : Z * Z :=
  default (1024, 1024) (ratios !! aspect_ratio).

(** The dict [input_params], lines 74 to 85. *)
Definition input_params (g : generator) (prompt : str) (width height : Z)
    (kwargs : gmap str value) : gmap str value :=
  let params : gmap str value :=
    {[ lit "prompt" := VStr prompt;
       lit "width" := VInt width;
       lit "height" := VInt height;
       lit "num_inference_steps" :=
         default (VInt (default_steps g)) (kwargs !! lit "steps");
       lit "guidance_scale" :=
         default (VFloat (default_guidance g)) (kwargs !! lit "guidance");
       lit "output_format" := VStr (lit "png") ]} in
  match kwargs !! lit "seed" with
  | Some seed => <[ lit "seed" := seed ]> params
  | None => params
  end.

Section WithEnv.
Variable env : Env.

Definition _download_image (url : str) : M (list byte) :=
  log INFO (lit "下载图片: " ++ take 100 url ++ lit "...") ;;;
  try_except
    (response <- send env (Request GET (VStr url) ∅ None 60) ;;
     if bool_decide (status_code response = 200)
     then ret (resp_content response)
     else raise (mk_exn PlainException
                   (lit "HTTP " ++ py_str env (VInt (status_code response)))))
    (fun _ => true)
    (fun e => raise (mk_exn PlainException (lit "下载图片失败: " ++ exn_msg e))).

(** [aspect_ratio] is [None] when the caller leaves it to the default. *)
Definition generate_image (g : generator) (prompt : str)
    (aspect_ratio : option str) (kwargs : gmap str value) : M (list byte) :=
  let aspect_ratio := default (lit "3:4") aspect_ratio in
  if negb (replicate_installed env) then
    raise (mk_exn ImportError (lit "Replicate package not installed"))
  else
    log INFO (lit "Replicate 生成图片: model=" ++ model g
              ++ lit ", aspect_ratio=" ++ aspect_ratio) ;;;
    let '(width, height) := _get_dimensions aspect_ratio in
    try_except
      (output <- run_model env (api_key g) (model g)
                   (input_params g prompt width height kwargs) ;;
       image_url <- (match output with
                     | VList _ => py_first output
                     | _ => ret output
                     end) ;;
       _download_image (py_str env image_url))
      (fun _ => true)
      (fun e =>
         log ERROR (lit "Replicate 生成失败: " ++ exn_msg e) ;;;
         raise (mk_exn RuntimeError (lit "图片生成失败: " ++ exn_msg e))).

End WithEnv.

Definition get_supported_aspect_ratios (g : generator) : list str :=
  [lit "1:1"; lit "3:4"; lit "4:3"; lit "9:16"; lit "16:9"].

End Replicate.

(** ** Observations on a trace *)

(** The durations slept, latest first. *)
Definition sleeps (tr : list event) : list float :=
  omap (fun ev => match ev with EvSleep d => Some d | _ => None end) tr.

(** The HTTP requests sent, latest first. *)
Definition requests (tr : list event) : list request :=
  omap (fun ev => match ev with EvHttp r => Some r | _ => None end) tr.

(** The log records of a level, latest first. *)
Definition logged (l : level) (tr : list event) : list str :=
  omap (fun ev => match ev with
                  | EvLog l' m => match l, l' with
                                  | INFO, INFO | WARNING, WARNING | ERROR, ERROR => Some m
                                  | _, _ => None
                                  end
                  | _ => None
                  end) tr.

(** [m] occurs inside [s]. *)
Definition contains (s m : str) : Prop := exists pre post, s = pre ++ m ++ post.

(** The keys of [Replicate.ratios], see [table_keys_spec]. *)
Definition table_keys : list str :=
  [lit "1:1"; lit "3:4"; lit "4:3"; lit "9:16"; lit "16:9"].

(** ** Replies of the service, as the specification names them *)

(** [raise_for_status] lets the response through: its status is neither a
    client nor a server error (every 2xx status passes). *)
Definition passes (r : response) : Prop :=
  (400 <=? status_code r) && (status_code r <? 600) = false.

(** The reply to the submission carries the task identifier [task_id]. *)
Inductive task_created (task_id : value) : http_outcome -> Prop :=
| created_intro r d :
    passes r ->
    resp_json r = inr (VDict d) ->
    d !! lit "task_id" = Some task_id ->
    task_created task_id (Reply r).

(** A reply to a status request after which the loop goes on: a transport
    error, an error status, a body that is not JSON, or a task status that is
    neither "SUCCEED" nor "FAILED" ("PENDING", anything else, or none). *)
Inductive nonterminal : http_outcome -> Prop :=
| nonterminal_transport e :
    is_RequestException e = true ->
    nonterminal (Fails e)
| nonterminal_http_error r :
    ~ passes r ->
    nonterminal (Reply r)
| nonterminal_not_json r e :
    passes r ->
    resp_json r = inl e ->
    is_RequestException e = true ->
    nonterminal (Reply r)
| nonterminal_status r d :
    passes r ->
    resp_json r = inr (VDict d) ->
    d !! lit "task_status" ≠ Some (VStr (lit "SUCCEED")) ->
    d !! lit "task_status" ≠ Some (VStr (lit "FAILED")) ->
    nonterminal (Reply r).

(** A reply that reports "SUCCEED" with [url] first in "output_images". *)
Inductive succeeded (url : value) : http_outcome -> Prop :=
| succeeded_intro r d rest :
    passes r ->
    resp_json r = inr (VDict d) ->
    d !! lit "task_status" = Some (VStr (lit "SUCCEED")) ->
    d !! lit "output_images" = Some (VList (url :: rest)) ->
    succeeded url (Reply r).

(** A reply that reports "FAILED" with the message [msg]. *)
Inductive failed (msg : value) : http_outcome -> Prop :=
| failed_intro r d :
    passes r ->
    resp_json r = inr (VDict d) ->
    d !! lit "task_status" = Some (VStr (lit "FAILED")) ->
    d !! lit "message" = Some msg ->
    failed msg (Reply r).

(** A reply to the download that delivers the bytes [img]. *)
Inductive delivers (img : list byte) : http_outcome -> Prop :=
| delivers_intro r :
    passes r ->
    resp_content r = img ->
    delivers img (Reply r).

(** The reading [t] of the clock is past the timeout counted from [start]:
    the test of line 96. *)
Definition timed_out (g : ModelScope.generator) (start t : float) : bool :=
  PrimFloat.ltb (ModelScope.timeout g) (PrimFloat.sub t start).

(** The POST requests sent, latest first. *)
Definition posts (tr : list event) : list request :=
  omap (fun ev => match ev with
                  | EvHttp r => match req_method r with POST => Some r | GET => None end
                  | _ => None
                  end) tr.

(** An event that is neither a warning nor a POST request. *)
Definition quiet (ev : event) : Prop :=
  match ev with
  | EvLog WARNING _ => False
  | EvHttp r => req_method r = GET
  | _ => True
  end.

(** [grows tr tr']: [tr'] is [tr] with quiet events added. *)
Inductive grows (tr : list event) : list event -> Prop :=
| grows_refl : grows tr tr
| grows_cons ev tr' : quiet ev -> grows tr tr' -> grows tr (ev :: tr').

(** A computation that only adds quiet events to the trace. *)
Definition quiet_m {A} (m : M A) : Prop :=
  forall w, grows (trace w) (trace (snd (m w))).

(** The text of the warning of line 59. *)
Definition truncation_warning (prompt : str) : str :=
  lit "Prompt length (" ++ lit (pretty (length prompt))
  ++ lit ") exceeds limit (" ++ lit (pretty ModelScope.MAX_PROMPT_LENGTH)
  ++ lit "). Truncating...".

(** The decoded body of a response is not a dict with the key "task_id". *)
Definition lacks_task_id (body : exn + value) : Prop :=
  forall d, body = inr (VDict d) -> d !! lit "task_id" = None.

(** The download is answered by a transport error or by an error status. *)
Inductive download_fails : http_outcome -> Prop :=
| download_fails_transport e :
    is_RequestException e = true ->
    download_fails (Fails e)
| download_fails_status r :
    ~ passes r ->
    download_fails (Reply r).

(** [output[0] if isinstance(output, list) else output] gives [u]. *)
Inductive picks : value -> value -> Prop :=
| picks_first u rest : picks (VList (u :: rest)) u
| picks_single v : (forall l, v ≠ VList l) -> picks v v.

(** The request of [_download_image], line 122. *)
Definition download_request (url : str) : request :=
  Request GET (VStr url) ∅ None 60.

(** The handler of line 99, applied to the outcome of the [try] block. *)
Definition wrap_failure (out : result (list byte) * world) : result (list byte) * world :=
  match out with
  | (Raise e, w) =>
      (Raise (mk_exn RuntimeError (lit "图片生成失败: " ++ exn_msg e)),
       World (http_calls w) (clock_reads w)
         (EvLog ERROR (lit "Replicate 生成失败: " ++ exn_msg e) :: trace w))
  | other => other
  end.

(** ** Scripted environments *)

Definition not_json : exn + value :=
  inl (mk_exn JSONDecodeError (lit "Expecting value: line 1 column 1 (char 0)")).

Definition json_reply (d : gmap str value) : http_outcome :=
  Reply (Response 200 [] [] (inr (VDict d)) []).

Definition bytes_reply (img : list byte) : http_outcome :=
  Reply (Response 200 [] img not_json []).

Definition error_reply (status : Z) (text : str) : http_outcome :=
  Reply (Response status [] [] not_json text).

Definition refused : http_outcome :=
  Fails (mk_exn ConnectionError (lit "Connection refused")).

(** The server answers [o] at [url] and refuses every other address. *)
Definition at_url (url : str) (o : http_outcome) (req : request) : http_outcome :=
  match req_url req with
  | VStr u => if bool_decide (u = url) then o else refused
  | _ => Fails (mk_exn RequestException (lit "Invalid URL"))
  end.

(** The k-th request gets the k-th reply and the k-th reading of the clock is
    the k-th number; [client.run] gives [output]. *)
Definition scripted (replies : list (request -> http_outcome)) (clock : list float)
    (output : exn + value) : Env :=
  {| http := fun k req => match replies !! k with Some f => f req | None => refused end;
     time_time := fun k => default 0%float (clock !! k);
     client_run := fun _ _ _ => output;
     replicate_installed := true;
     py_repr := fun _ => lit "<object>" |}.

Definition no_model : exn + value :=
  inl (mk_exn (OtherException (lit "ReplicateError")) (lit "model not found")).

Definition submit_url : str := lit "https://api-inference.modelscope.cn/v1/images/generations".
Definition task_url : str := lit "https://api-inference.modelscope.cn/v1/tasks/t1".
Definition image_url : str := lit "http://x/y.png".
Definition png : list byte := [x89; x50; x4e; x47]%byte.

Definition created : request -> http_outcome :=
  at_url submit_url (json_reply {[ lit "task_id" := VStr (lit "t1") ]}).
Definition pending : request -> http_outcome :=
  at_url task_url (json_reply {[ lit "task_status" := VStr (lit "PENDING") ]}).
Definition succeed : request -> http_outcome :=
  at_url task_url (json_reply {[ lit "task_status" := VStr (lit "SUCCEED");
                                 lit "output_images" := VList [VStr image_url] ]}).
Definition bad_prompt : request -> http_outcome :=
  at_url task_url (json_reply {[ lit "task_status" := VStr (lit "FAILED");
                                 lit "message" := VStr (lit "bad prompt") ]}).
Definition image : request -> http_outcome := at_url image_url (bytes_reply png).

Definition g0 : ModelScope.generator :=
  ModelScope.init (Some (lit "sk-test")) None None None None.

(** Section 8, property 4: PENDING, PENDING, SUCCEED. *)
Definition env_pending : Env :=
  scripted [created; pending; pending; succeed; image] [0; 2; 4; 6]%float no_model.

(** Section 8, property 7: two transport failures, then SUCCEED. *)
Definition env_flaky : Env :=
  scripted [created; fun _ => refused; fun _ => refused; succeed; image]
    [0; 2; 4; 6]%float no_model.

(** A transport failure, then a reading of the clock past the 60 seconds. *)
Definition env_slow : Env :=
  scripted [created; fun _ => refused; pending] [0; 30; 61]%float no_model.

(** Section 8, property 5: FAILED with the message "bad prompt". *)
Definition env_failed : Env :=
  scripted [created; pending; bad_prompt] [0; 2; 4]%float no_model.

(** Section 8, property 3: the submission is answered without a task id. *)
Definition env_no_task_id : Env :=
  scripted [at_url submit_url (json_reply {[ lit "request_id" := VStr (lit "r1") ]})]
    [0]%float no_model.

(** The download is answered by a 500 once, and by the image afterwards. *)
Definition env_download_500 : Env :=
  scripted [created; succeed;
            at_url image_url (error_reply 500 (lit "500 Server Error"));
            succeed; image]
    [0; 2; 4; 6]%float no_model.

(** [n] readings of a clock that starts at [t] and advances by [step]. *)
Fixpoint ticks (t step : float) (n : nat) : list float :=
  match n with
  | O => []
  | S n' => t :: ticks (PrimFloat.add t step) step n'
  end.

(** The system clock reads 3600 when the task is submitted and is set back
    to 0 right after; from there it follows the sleeps of 2 seconds.  The
    task stays pending for 40 polls and succeeds at the 41st. *)
Definition env_clock_set_back : Env :=
  scripted (created :: replicate 40 pending ++ [succeed; image])
    (3600%float :: ticks 0%float 2%float 41) no_model.

(** The seconds slept in a run: [time.sleep(d)] suspends the caller for at
    least [d] seconds, so at least this much time has passed. *)
Definition slept (tr : list event) : float :=
  fold_right PrimFloat.add 0%float (sleeps tr).

(** A prompt of 1801 lone surrogates. *)
Definition surrogate_prompt : str := repeat 0xD83D%N 1801.

Definition a_prompt : str := lit "一只猫".
Definition long_prompt : str := repeat 0x732B%N 1805.

(** [client.run] returns two file objects; the first one cannot be fetched. *)
Definition env_replicate : Env :=
  scripted [at_url image_url (error_reply 404 (lit "404 Client Error"))] [0]%float
    (inr (VList [VObj image_url; VObj (lit "http://x/z.png")])).

(** ** Further observations on a trace *)

(** [adds P tr tr']: [tr'] is [tr] with events that satisfy [P] added. *)
Inductive adds (P : event -> Prop) (tr : list event) : list event -> Prop :=
| adds_refl : adds P tr tr
| adds_cons ev tr' : P ev -> adds P tr tr' -> adds P tr (ev :: tr').

(** A computation all of whose events satisfy [P]. *)
Definition only_adds (P : event -> Prop) {A} (m : M A) : Prop :=
  forall w, adds P (trace w) (trace (snd (m w))).

(** What a run of [ModelScope.generate_image] may do: sleep one polling
    interval, send HTTP requests, read the clock and log. *)
Definition run_event (g : ModelScope.generator) (ev : event) : Prop :=
  match ev with
  | EvSleep d => d = ModelScope.polling_interval g
  | EvRun _ _ _ => False
  | _ => True
  end.

(** What the polling loop for the task [task_id] may do: its requests are the
    status request of that task and downloads without headers. *)
Definition poll_event (env : Env) (g : ModelScope.generator) (task_id : value)
    (ev : event) : Prop :=
  match ev with
  | EvSleep d => d = ModelScope.polling_interval g
  | EvHttp r =>
      r = ModelScope.status_request env g task_id
      \/ exists url, r = ModelScope.image_request url
  | EvRun _ _ _ => False
  | _ => True
  end.

(** The calls of [client.run], latest first: the token of the client, the
    model and the input. *)
Definition model_calls (tr : list event) : list (option str * str * gmap str value) :=
  omap (fun ev => match ev with
                  | EvRun token model input => Some (token, model, input)
                  | _ => None
                  end) tr.

(** ** Further replies of the service *)

(** A status reply the loop cannot use, with the class of the exception it
    leads to: a JSON body that is not a dict, or a "SUCCEED" without
    "output_images" or with an empty list. *)
Inductive unusable : exc_class -> http_outcome -> Prop :=
| unusable_not_dict r v :
    passes r ->
    resp_json r = inr v ->
    (forall d, v ≠ VDict d) ->
    unusable AttributeError (Reply r)
| unusable_no_images r d :
    passes r ->
    resp_json r = inr (VDict d) ->
    d !! lit "task_status" = Some (VStr (lit "SUCCEED")) ->
    d !! lit "output_images" = None ->
    unusable KeyError (Reply r)
| unusable_empty_images r d :
    passes r ->
    resp_json r = inr (VDict d) ->
    d !! lit "task_status" = Some (VStr (lit "SUCCEED")) ->
    d !! lit "output_images" = Some (VList []) ->
    unusable IndexError (Reply r).

(** A reply that reports "FAILED" and gives no message. *)
Inductive failed_silently : http_outcome -> Prop :=
| failed_silently_intro r d :
    passes r ->
    resp_json r = inr (VDict d) ->
    d !! lit "task_status" = Some (VStr (lit "FAILED")) ->
    d !! lit "message" = None ->
    failed_silently (Reply r).

(** ** The parameters of the Replicate model *)

(** The keys of the dict [input_params]. *)
Definition input_keys : list str :=
  [lit "prompt"; lit "width"; lit "height"; lit "num_inference_steps";
   lit "guidance_scale"; lit "output_format"; lit "seed"].

(** ** Reading the body of the submission back *)

(** The value of a hexadecimal digit. *)
Definition unhex (d : N) : N := if (d <? 58)%N then (d - 48)%N else (d - 87)%N.

(** Reading back [json_escape_char]: the character that the front of [s]
    stands for, and the rest of [s]. *)
Definition json_unescape_head (s : str) : option (N * str) :=
  match s with
  | [] => None
  | c :: r =>
    if (c =? 92)%N then
      match r with
      | [] => None
      | e :: r' =>
        if (e =? 117)%N then
          match r' with
          | h3 :: h2 :: h1 :: h0 :: r'' =>
              Some ((unhex h3 * 4096 + unhex h2 * 256 + unhex h1 * 16 + unhex h0)%N, r'')
          | _ => None
          end
        else
          Some (if (e =? 110)%N then 10%N
                else if (e =? 114)%N then 13%N
                else if (e =? 116)%N then 9%N
                else if (e =? 98)%N then 8%N
                else if (e =? 102)%N then 12%N
                else e, r')
      end
    else Some (c, r)
  end.

(** Reading back [utf8_char]: the code point at the front of the bytes. *)
Definition utf8_head (bs : list byte) : option (N * list byte) :=
  match bs with
  | [] => None
  | b0 :: r =>
    let n0 := Byte.to_N b0 in
    if (n0 <? 0x80)%N then Some (n0, r)
    else if (n0 <? 0xE0)%N then
      match r with
      | b1 :: r' => Some (((n0 - 0xC0) * 64 + (Byte.to_N b1 - 0x80))%N, r')
      | _ => None
      end
    else if (n0 <? 0xF0)%N then
      match r with
      | b1 :: b2 :: r' =>
          Some (((n0 - 0xE0) * 4096 + (Byte.to_N b1 - 0x80) * 64
                 + (Byte.to_N b2 - 0x80))%N, r')
      | _ => None
      end
    else
      match r with
      | b1 :: b2 :: b3 :: r' =>
          Some (((n0 - 0xF0) * 262144 + (Byte.to_N b1 - 0x80) * 4096
                 + (Byte.to_N b2 - 0x80) * 64 + (Byte.to_N b3 - 0x80))%N, r')
      | _ => None
      end
  end.

(** The code points of a Python [str] are at most 0x10FFFF. *)
Definition is_text (s : str) : Prop := Forall (fun c => (c < 0x110000)%N) s.

(** ** Further configurations and scripted environments *)

(** The generator [g] configured with the base URL [b]. *)
Definition with_base_url (g : ModelScope.generator) (b : str) : ModelScope.generator :=
  ModelScope.Generator (ModelScope.api_key g) b (ModelScope.model g)
    (ModelScope.polling_interval g) (ModelScope.timeout g).

(** No server can be reached. *)
Definition env_offline : Env := scripted [] [] no_model.

Definition unauthorized : response :=
  Response 401 (lit "invalid token") [] not_json
    (lit "401 Client Error: Unauthorized for url: https://api-inference.modelscope.cn/v1/images/generations").

(** The submission is answered by a 401. *)
Definition env_unauthorized : Env := scripted [fun _ => Reply unauthorized] [] no_model.

(** PENDING, then SUCCEED without the key "output_images". *)
Definition env_no_images : Env :=
  scripted [created; pending;
            at_url task_url (json_reply {[ lit "task_status" := VStr (lit "SUCCEED") ]})]
    [0; 2; 4]%float no_model.

(** PENDING, then FAILED without the key "message". *)
Definition env_failed_silently : Env :=
  scripted [created; pending;
            at_url task_url (json_reply {[ lit "task_status" := VStr (lit "FAILED") ]})]
    [0; 2; 4]%float no_model.

(** The task stays pending. *)
Definition env_always_pending : Env :=
  scripted (created :: replicate 3 pending) (ticks 0%float 2%float 4) no_model.

(** The first poll reads the clock exactly 60 seconds after the start. *)
Definition env_on_time : Env :=
  scripted [created; succeed; image] [0; 60]%float no_model.

(** [client.run] returns an empty list. *)
Definition env_empty_output : Env := scripted [] [] (inr (VList [])).

(** * Proofs *)

(** ** Literals *)

Example lit_ascii : lit "1:1" = [49; 58; 49]%N.
Proof. reflexivity. Qed.

Example lit_cjk : lit "图片" = [0x56FE; 0x7247]%N.
Proof. reflexivity. Qed.

(** ** The dimension table of the Replicate generator *)

Example get_dimensions_default_ratio :
  Replicate._get_dimensions (lit "3:4") = (896, 1152).
Proof. vm_compute. reflexivity. Qed.

Lemma ratios_unknown (r : str) : r ∉ table_keys -> Replicate.ratios !! r = None.
Proof.
  unfold table_keys. rewrite !not_elem_of_cons. intros (H1 & H2 & H3 & H4 & H5 & _).
  unfold Replicate.ratios.
  rewrite !lookup_insert_ne by congruence.
  apply lookup_singleton_ne. congruence.
Qed.

Lemma table_keys_spec (r : str) :
  r ∈ table_keys <-> is_Some (Replicate.ratios !! r).
Proof.
  split.
  - unfold table_keys. rewrite !elem_of_cons, elem_of_nil.
    intros [->|[->|[->|[->|[->|[]]]]]]; vm_compute; eauto.
  - intros [v Hv]. destruct (decide (r ∈ table_keys)) as [Hin|Hout]; [exact Hin|].
    rewrite (ratios_unknown r Hout) in Hv. discriminate Hv.
Qed.

Lemma get_dimensions_unknown (r : str) :
  r ∉ table_keys -> Replicate._get_dimensions r = (1024, 1024).
Proof.
  intros H. unfold Replicate._get_dimensions. now rewrite ratios_unknown.
Qed.

(** C8: a ratio outside the table gets the default 1024 x 1024, and each of
    the five ratios of the table gets the pair the table gives it. *)
Theorem get_dimensions_table_or_default :
  (forall r : str, r ∉ table_keys -> Replicate._get_dimensions r = (1024, 1024))
  /\ Replicate._get_dimensions (lit "1:1") = (1024, 1024)
  /\ Replicate._get_dimensions (lit "3:4") = (896, 1152)
  /\ Replicate._get_dimensions (lit "4:3") = (1152, 896)
  /\ Replicate._get_dimensions (lit "9:16") = (768, 1344)
  /\ Replicate._get_dimensions (lit "16:9") = (1344, 768).
Proof.
  split; [exact get_dimensions_unknown|].
  repeat split; vm_compute; reflexivity.
Qed.

Lemma get_dimensions_table_or_default_witness :
  (lit "2:3" ∉ table_keys) /\ Replicate._get_dimensions (lit "2:3") = (1024, 1024).
Proof.
  assert (H : lit "2:3" ∉ table_keys).
  { unfold table_keys. rewrite !not_elem_of_cons. repeat split; try discriminate.
    apply not_elem_of_nil. }
  split; [exact H|].
  exact (proj1 get_dimensions_table_or_default (lit "2:3") H).
Defined.

(** C10: the table is symmetric under the exchange of width and height:
    "3:4" and "4:3" are each other's exchange, so are "9:16" and "16:9", and
    the pair of "1:1" and of every ratio outside the table is its own
    exchange.  [_get_dimensions] is a function of its argument only. *)
Theorem get_dimensions_swap_symmetric :
  Replicate._get_dimensions (lit "3:4") = prod_swap (Replicate._get_dimensions (lit "4:3"))
  /\ Replicate._get_dimensions (lit "4:3") = prod_swap (Replicate._get_dimensions (lit "3:4"))
  /\ Replicate._get_dimensions (lit "9:16") = prod_swap (Replicate._get_dimensions (lit "16:9"))
  /\ Replicate._get_dimensions (lit "16:9") = prod_swap (Replicate._get_dimensions (lit "9:16"))
  /\ prod_swap (Replicate._get_dimensions (lit "1:1")) = Replicate._get_dimensions (lit "1:1")
  /\ (forall r : str, r ∉ table_keys ->
        prod_swap (Replicate._get_dimensions r) = Replicate._get_dimensions r).
Proof.
  repeat split; try (vm_compute; reflexivity).
  intros r H. now rewrite get_dimensions_unknown.
Qed.

Lemma get_dimensions_swap_symmetric_witness :
  (lit "21:9" ∉ table_keys)
  /\ prod_swap (Replicate._get_dimensions (lit "21:9")) = Replicate._get_dimensions (lit "21:9").
Proof.
  assert (H : lit "21:9" ∉ table_keys).
  { unfold table_keys. rewrite !not_elem_of_cons. repeat split; try discriminate.
    apply not_elem_of_nil. }
  split; [exact H|].
  exact (proj2 (proj2 (proj2 (proj2 (proj2 get_dimensions_swap_symmetric)))) (lit "21:9") H).
Defined.

(** ** Running the monad *)

Ltac exec :=
  cbv beta iota zeta delta
    [bind ret raise try_except emit log sleep read_clock send run_model
     raise_for_status json py_get py_getitem py_first
     http_calls clock_reads trace fst snd].

Lemma grows_trans tr1 tr2 tr3 : grows tr1 tr2 -> grows tr2 tr3 -> grows tr1 tr3.
Proof. intros H12 H23. induction H23; [assumption|]. now constructor. Qed.

Lemma grows_logged_warning tr tr' :
  grows tr tr' -> logged WARNING tr' = logged WARNING tr.
Proof.
  induction 1 as [|ev tr' Hq _ IH]; [reflexivity|].
  destruct ev as [r|t|d|[] m|]; simpl in *; try assumption. contradiction.
Qed.

Lemma grows_posts tr tr' : grows tr tr' -> posts tr' = posts tr.
Proof.
  induction 1 as [|ev tr' Hq _ IH]; [reflexivity|].
  destruct ev as [r|t|d|l m|]; cbn [quiet] in Hq; try exact IH.
  unfold posts in *. cbn [omap list_omap]. now rewrite Hq.
Qed.

Lemma quiet_ret {A} (a : A) : quiet_m (ret a).
Proof. intros w. apply grows_refl. Qed.

Lemma quiet_raise {A} e : quiet_m (@raise A e).
Proof. intros w. apply grows_refl. Qed.

Lemma quiet_bind {A B} (m : M A) (k : A -> M B) :
  quiet_m m -> (forall a, quiet_m (k a)) -> quiet_m (bind m k).
Proof.
  intros Hm Hk w. unfold bind. specialize (Hm w).
  destruct (m w) as [[a|e|] w1]; cbn [snd] in *; try assumption.
  eapply grows_trans; [eassumption|apply Hk].
Qed.

Lemma quiet_try_except {A} (m : M A) handles h :
  quiet_m m -> (forall e, quiet_m (h e)) -> quiet_m (try_except m handles h).
Proof.
  intros Hm Hh w. unfold try_except. specialize (Hm w).
  destruct (m w) as [[a|e|] w1]; cbn [snd] in *; try assumption.
  destruct (handles e); cbn [snd]; try assumption.
  eapply grows_trans; [eassumption|apply Hh].
Qed.

Lemma quiet_while {A} (body : M (option A)) fuel :
  quiet_m body -> quiet_m (while_true fuel body).
Proof.
  intros Hb. induction fuel as [|fuel IH]; intros w; cbn [while_true]; [apply grows_refl|].
  specialize (Hb w).
  destruct (body w) as [[[a|]|e|] w1]; cbn [snd] in *; try assumption.
  eapply grows_trans; [eassumption|apply IH].
Qed.

Lemma quiet_emit ev : quiet ev -> quiet_m (emit ev).
Proof. intros H w. apply grows_cons; [assumption|apply grows_refl]. Qed.

Lemma quiet_log_info msg : quiet_m (log INFO msg).
Proof. now apply quiet_emit. Qed.

Lemma quiet_log_error msg : quiet_m (log ERROR msg).
Proof. now apply quiet_emit. Qed.

Lemma quiet_sleep d : quiet_m (sleep d).
Proof. now apply quiet_emit. Qed.

Lemma quiet_read_clock env : quiet_m (read_clock env).
Proof. intros w. apply grows_cons; [exact I|apply grows_refl]. Qed.

Lemma quiet_send env r : req_method r = GET -> quiet_m (send env r).
Proof.
  intros H w. unfold send.
  destruct (http env (http_calls w) r); apply grows_cons; try assumption; apply grows_refl.
Qed.

Lemma quiet_raise_for_status r : quiet_m (raise_for_status r).
Proof. unfold raise_for_status. case_match; [apply quiet_raise|apply quiet_ret]. Qed.

Lemma quiet_json r : quiet_m (json r).
Proof. unfold json. case_match; [apply quiet_raise|apply quiet_ret]. Qed.

Lemma quiet_py_get data key dflt : quiet_m (py_get data key dflt).
Proof. unfold py_get. case_match; first [apply quiet_raise|apply quiet_ret]. Qed.

Lemma quiet_py_getitem data key : quiet_m (py_getitem data key).
Proof. unfold py_getitem. repeat case_match; first [apply quiet_raise|apply quiet_ret]. Qed.

Lemma quiet_py_first v : quiet_m (py_first v).
Proof. unfold py_first. repeat case_match; first [apply quiet_raise|apply quiet_ret]. Qed.

Create HintDb quiet.
#[local] Hint Resolve quiet_ret quiet_raise quiet_log_info quiet_log_error quiet_sleep
  quiet_read_clock quiet_raise_for_status quiet_json quiet_py_get quiet_py_getitem
  quiet_py_first : quiet.

Ltac quiet_step :=
  match goal with
  | |- quiet_m (bind _ _) => apply quiet_bind; [|intros ?]
  | |- quiet_m (try_except _ _ _) => apply quiet_try_except; [|intros ?]
  | |- quiet_m (send _ _) => apply quiet_send; reflexivity
  | |- quiet_m (if ?b then _ else _) => destruct b
  | |- quiet_m (match ?x with _ => _ end) => destruct x
  | |- quiet_m _ => solve [auto with quiet]
  end.

Lemma bind_ret_run {A B} (m : M A) (k : A -> M B) w a w1 :
  m w = (Ret a, w1) -> bind m k w = k a w1.
Proof. intros H. unfold bind. now rewrite H. Qed.

Lemma bind_raise_run {A B} (m : M A) (k : A -> M B) w e w1 :
  m w = (Raise e, w1) -> bind m k w = (Raise e, w1).
Proof. intros H. unfold bind. now rewrite H. Qed.

Lemma success_passes r : 200 <= status_code r < 300 -> passes r.
Proof.
  intros H. unfold passes. apply andb_false_iff. left. apply Z.leb_gt. lia.
Qed.

Lemma sleeps_cons ev tr :
  sleeps (ev :: tr) = match ev with EvSleep d => d :: sleeps tr | _ => sleeps tr end.
Proof. now destruct ev. Qed.

Lemma requests_cons ev tr :
  requests (ev :: tr) = match ev with EvHttp r => r :: requests tr | _ => requests tr end.
Proof. now destruct ev. Qed.

(** ** The body of the submission as bytes *)

Lemma try_bind_ret {A B} (m : M A) (k : A -> M B) hd h w a w1 :
  m w = (Ret a, w1) -> try_except (bind m k) hd h w = try_except (k a) hd h w1.
Proof. intros H. unfold try_except, bind. now rewrite H. Qed.

Lemma has_surrogate_app s t : has_surrogate (s ++ t) = has_surrogate s || has_surrogate t.
Proof. apply existsb_app. Qed.

Lemma hex_digit_plain n : is_surrogate (hex_digit (n mod 16)) = false.
Proof.
  pose proof (N.mod_upper_bound n 16 ltac:(discriminate)) as Hn.
  unfold is_surrogate, hex_digit. apply andb_false_iff. left. apply N.leb_gt.
  destruct (n mod 16 <? 10)%N; lia.
Qed.

Lemma json_escape_char_surrogate c :
  has_surrogate (json_escape_char c) = is_surrogate c.
Proof.
  unfold json_escape_char.
  repeat match goal with
  | |- context [(c =? ?k)%N] =>
      destruct (N.eqb_spec c k) as [->|_]; [reflexivity|]
  end.
  destruct (N.ltb_spec c 32) as [Hc|_].
  - rewrite has_surrogate_app. unfold hex4, has_surrogate at 2. cbn [existsb].
    rewrite !hex_digit_plain. cbn [orb has_surrogate existsb].
    symmetry. unfold is_surrogate. apply andb_false_iff. left. apply N.leb_gt. lia.
  - cbn [has_surrogate existsb]. apply orb_false_r.
Qed.

Lemma json_escape_surrogate s :
  has_surrogate (flat_map json_escape_char s) = has_surrogate s.
Proof.
  induction s as [|c s IH]; [reflexivity|].
  cbn [flat_map]. rewrite has_surrogate_app, json_escape_char_surrogate, IH. reflexivity.
Qed.

Lemma json_string_surrogate s : has_surrogate (json_string s) = has_surrogate s.
Proof.
  unfold json_string. rewrite !has_surrogate_app, json_escape_surrogate.
  change (has_surrogate [34%N]) with false. cbn [orb]. apply orb_false_r.
Qed.

Lemma payload_surrogate g prompt :
  has_surrogate (json_dumps (ModelScope.payload g prompt))
  = has_surrogate (ModelScope.model g ++ prompt).
Proof.
  unfold json_dumps, ModelScope.payload. cbn [map join fst snd].
  rewrite !has_surrogate_app, !json_string_surrogate.
  change (has_surrogate (lit "{")) with false.
  change (has_surrogate (lit "}")) with false.
  change (has_surrogate (lit ", ")) with false.
  change (has_surrogate (lit ": ")) with false.
  change (has_surrogate (lit "model")) with false.
  change (has_surrogate (lit "prompt")) with false.
  cbn [orb]. now rewrite !orb_false_r.
Qed.

Lemma first_surrogate_none s i : has_surrogate s = false -> first_surrogate s i = None.
Proof.
  revert i. induction s as [|c s IH]; intros i H; [reflexivity|].
  cbn [has_surrogate existsb] in H. apply orb_false_iff in H as [Hc Hs].
  cbn [first_surrogate]. rewrite Hc. now apply IH.
Qed.

Lemma first_surrogate_some s i :
  has_surrogate s = true -> exists found, first_surrogate s i = Some found.
Proof.
  revert i. induction s as [|c s IH]; intros i H; [discriminate|].
  cbn [has_surrogate existsb] in H. cbn [first_surrogate].
  destruct (is_surrogate c); [eauto|]. now apply IH.
Qed.

Lemma encode_utf8_plain s w :
  has_surrogate s = false -> encode_utf8 s w = (Ret (utf8_bytes s), w).
Proof. intros H. unfold encode_utf8. now rewrite first_surrogate_none. Qed.

Lemma encode_utf8_surrogate s w :
  has_surrogate s = true ->
  exists msg, encode_utf8 s w = (Raise (mk_exn UnicodeEncodeError msg), w).
Proof.
  intros H. unfold encode_utf8.
  destruct (first_surrogate_some s 0 H) as [found ->]. now eexists.
Qed.

(** With a body that can be encoded, [submit] goes on to the POST. *)
Ltac submit_encoded g prompt H :=
  unfold ModelScope.submit;
  erewrite try_bind_ret by (apply encode_utf8_plain; rewrite payload_surrogate; exact H);
  change (ModelScope.post_request g (utf8_bytes (json_dumps (ModelScope.payload g prompt))))
    with (ModelScope.submit_request g prompt).

(** ** ModelScope: validation, prompt check and submission *)

Section Submit.
Variable env : Env.
Variable g : ModelScope.generator.


Lemma validate_config_present w :
  truthy (ModelScope.api_key g) = true -> ModelScope.validate_config g w = (Ret true, w).
Proof. intros H. unfold ModelScope.validate_config. now rewrite H. Qed.

Lemma validate_config_absent w :
  truthy (ModelScope.api_key g) = false ->
  ModelScope.validate_config g w
  = (Raise (mk_exn ValueError (lit "ModelScope API Key is required")), w).
Proof. intros H. unfold ModelScope.validate_config. now rewrite H. Qed.

Lemma check_prompt_run prompt w :
  exists w',
    ModelScope.check_prompt prompt w = (Ret (take ModelScope.MAX_PROMPT_LENGTH prompt), w')
    /\ http_calls w' = http_calls w
    /\ clock_reads w' = clock_reads w
    /\ sleeps (trace w') = sleeps (trace w)
    /\ requests (trace w') = requests (trace w)
    /\ logged WARNING (trace w')
       = (if (ModelScope.MAX_PROMPT_LENGTH <? length prompt)%nat
          then [truncation_warning prompt] else []) ++ logged WARNING (trace w).
Proof.
  destruct w as [hc cr tr]. unfold ModelScope.check_prompt.
  destruct (ModelScope.MAX_PROMPT_LENGTH <? length prompt)%nat eqn:E.
  - exec. eexists. repeat split.
  - apply Nat.ltb_ge in E. rewrite take_ge by exact E. exists (World hc cr tr). repeat split.
Qed.

Lemma submit_created prompt task_id w :
  has_surrogate (ModelScope.model g ++ prompt) = false ->
  task_created task_id (http env (http_calls w) (ModelScope.submit_request g prompt)) ->
  exists w',
    ModelScope.submit env g prompt w = (Ret task_id, w')
    /\ http_calls w' = S (http_calls w)
    /\ clock_reads w' = clock_reads w
    /\ sleeps (trace w') = sleeps (trace w)
    /\ requests (trace w') = ModelScope.submit_request g prompt :: requests (trace w).
Proof.
  destruct w as [hc cr tr]. cbn [http_calls clock_reads trace]. intros He H.
  inversion H as [r d Hr Hj Hd Ho]. unfold passes in Hr.
  submit_encoded g prompt He. exec. rewrite <- Ho.
  destruct (bool_decide (status_code r ≠ 200)); rewrite Hr, Hj, Hd; eexists; repeat split.
Qed.

Lemma submit_rejected prompt r w :
  has_surrogate (ModelScope.model g ++ prompt) = false ->
  http env (http_calls w) (ModelScope.submit_request g prompt) = Reply r ->
  passes r ->
  lacks_task_id (resp_json r) ->
  exists e w',
    ModelScope.submit env g prompt w = (Raise e, w')
    /\ http_calls w' = S (http_calls w)
    /\ clock_reads w' = clock_reads w
    /\ sleeps (trace w') = sleeps (trace w)
    /\ requests (trace w') = ModelScope.submit_request g prompt :: requests (trace w).
Proof.
  destruct w as [hc cr tr]. cbn [http_calls clock_reads trace]. intros He Ho Hr Hl.
  unfold passes in Hr. unfold lacks_task_id in Hl.
  submit_encoded g prompt He. exec. rewrite Ho.
  destruct (bool_decide (status_code r ≠ 200)); rewrite Hr;
    (destruct (resp_json r) as [e|[| | | | | |d|]];
     [ destruct (is_RequestException e); [destruct (exn_response_text e)|]
     | .. ]);
    try rewrite (Hl d eq_refl);
    cbn [is_RequestException exn_class mk_exn not_subscriptable];
    do 2 eexists; repeat split.
Qed.

Lemma submit_unencodable prompt w :
  has_surrogate (ModelScope.model g ++ prompt) = true ->
  exists msg,
    ModelScope.submit env g prompt w = (Raise (mk_exn UnicodeEncodeError msg), w).
Proof.
  intros He. rewrite <- payload_surrogate in He.
  destruct (encode_utf8_surrogate _ w He) as [msg E]. exists msg.
  unfold ModelScope.submit, try_except, bind. now rewrite E.
Qed.

Lemma submit_posts prompt w :
  has_surrogate (ModelScope.model g ++ prompt) = false ->
  grows (EvHttp (ModelScope.submit_request g prompt) :: trace w)
        (trace (snd (ModelScope.submit env g prompt w))).
Proof.
  intros He. submit_encoded g prompt He.
  set (req := ModelScope.submit_request g prompt).
  match goal with
  | |- context [try_except (bind (send env req) ?k) ?hd ?h] =>
      set (rest := k); set (handler := h);
      assert (Hrest : forall a, quiet_m (try_except (rest a) hd handler))
  end.
  { intros a. subst rest handler. cbv beta. repeat quiet_step. }
  assert (Hh : forall e, quiet_m (handler e)).
  { intros e. subst handler. cbv beta. repeat quiet_step. }
  unfold try_except at 1, bind at 1, send.
  destruct (http env (http_calls w) req) as [r|e]; cbn [http_calls clock_reads trace].
  - specialize (Hrest r (World (S (http_calls w)) (clock_reads w) (EvHttp req :: trace w))).
    exact Hrest.
  - destruct (is_RequestException e); [|apply grows_refl].
    apply (Hh e (World (S (http_calls w)) (clock_reads w) (EvHttp req :: trace w))).
Qed.
End Submit.

(** ** ModelScope: one turn of the polling loop, and the loop *)

Section Poll.
Variable env : Env.
Variable g : ModelScope.generator.
Variable task_id : value.
Variable start : float.

Lemma py_eq_str_true v s : py_eq_str v s = true <-> v = VStr s.
Proof.
  destruct v; simpl; try (split; [discriminate|congruence]).
  rewrite bool_decide_eq_true. split; congruence.
Qed.

Lemma py_eq_str_false v s : py_eq_str v s = false <-> v ≠ VStr s.
Proof.
  rewrite <- py_eq_str_true. destruct (py_eq_str v s); split; congruence.
Qed.

Lemma poll_once_nonterminal w :
  timed_out g start (time_time env (clock_reads w)) = false ->
  nonterminal (http env (http_calls w) (ModelScope.status_request env g task_id)) ->
  exists w',
    ModelScope.poll_once env g task_id start w = (Ret None, w')
    /\ http_calls w' = S (http_calls w)
    /\ clock_reads w' = S (clock_reads w)
    /\ sleeps (trace w') = ModelScope.polling_interval g :: sleeps (trace w)
    /\ requests (trace w') = ModelScope.status_request env g task_id :: requests (trace w)
    /\ logged WARNING (trace w') = logged WARNING (trace w).
Proof.
  unfold timed_out. destruct w as [hc cr tr]. cbn [http_calls clock_reads trace]. intros Ht Hn.
  unfold ModelScope.poll_once. exec. rewrite Ht.
  inversion Hn as [e He Ho | r Hr Ho | r e Hr Hj He Ho | r d Hr Hj Hs Hf Ho].
  - rewrite He. eexists. repeat split.
  - unfold passes in Hr. apply not_false_is_true in Hr. rewrite Hr.
    simpl. eexists. repeat split.
  - unfold passes in Hr. rewrite Hr, Hj, He. eexists. repeat split.
  - unfold passes in Hr. rewrite Hr, Hj.
    assert (E1 : py_eq_str (default VNone (d !! lit "task_status")) (lit "SUCCEED") = false).
    { apply py_eq_str_false. destruct (d !! lit "task_status"); simpl; congruence. }
    assert (E2 : py_eq_str (default VNone (d !! lit "task_status")) (lit "FAILED") = false).
    { apply py_eq_str_false. destruct (d !! lit "task_status"); simpl; congruence. }
    rewrite E1, E2. eexists. repeat split.
Qed.

Let body := ModelScope.poll_once env g task_id start.
Let status := ModelScope.status_request env g task_id.

Lemma replicate_app_cons {A} n (x : A) l : replicate n x ++ x :: l = x :: replicate n x ++ l.
Proof. induction n as [|n IH]; simpl; [reflexivity|]. now rewrite IH. Qed.

Lemma poll_loop_nonterminal n : forall w fuel,
  (forall k, (k < n)%nat ->
     timed_out g start (time_time env (clock_reads w + k)) = false
     /\ nonterminal (http env (http_calls w + k) status)) ->
  exists w',
    while_true (n + fuel) body w = while_true fuel body w'
    /\ http_calls w' = (http_calls w + n)%nat
    /\ clock_reads w' = (clock_reads w + n)%nat
    /\ sleeps (trace w') = replicate n (ModelScope.polling_interval g) ++ sleeps (trace w)
    /\ requests (trace w') = replicate n status ++ requests (trace w)
    /\ logged WARNING (trace w') = logged WARNING (trace w).
Proof.
  induction n as [|n IH]; intros w fuel H.
  - exists w. rewrite !Nat.add_0_r. repeat split.
  - destruct (H 0%nat ltac:(lia)) as [Ht Hn]. rewrite Nat.add_0_r in Ht, Hn.
    destruct (poll_once_nonterminal w Ht Hn) as (w1 & E1 & Hc1 & Hr1 & Hs1 & Hq1 & Hl1).
    destruct (IH w1 fuel) as (w' & E & Hc & Hr & Hs & Hq & Hl).
    { intros k Hk. rewrite Hc1, Hr1. simpl.
      replace (S (clock_reads w + k)) with (clock_reads w + S k)%nat by lia.
      replace (S (http_calls w + k)) with (http_calls w + S k)%nat by lia.
      apply H. lia. }
    exists w'. split.
    { change (S n + fuel)%nat with (S (n + fuel)). cbn [while_true].
      fold body. unfold body at 1. rewrite E1. exact E. }
    rewrite Hc, Hr, Hs, Hq, Hl, Hc1, Hr1, Hs1, Hq1, Hl1.
    cbn [replicate]. rewrite !replicate_app_cons.
    repeat split; lia.
Qed.

Lemma poll_once_timed_out w :
  timed_out g start (time_time env (clock_reads w)) = true ->
  exists w',
    body w = (Raise (mk_exn TimeoutError
                       (lit "Image generation timed out after "
                        ++ py_str env (VFloat (ModelScope.timeout g)) ++ lit " seconds")), w')
    /\ http_calls w' = http_calls w
    /\ clock_reads w' = S (clock_reads w)
    /\ sleeps (trace w') = sleeps (trace w)
    /\ requests (trace w') = requests (trace w).
Proof.
  unfold timed_out. destruct w as [hc cr tr]. cbn [http_calls clock_reads trace]. intros Ht.
  unfold body, ModelScope.poll_once. exec. rewrite Ht. eexists. repeat split.
Qed.

Lemma py_eq_str_refl s : py_eq_str (VStr s) s = true.
Proof. now apply py_eq_str_true. Qed.

Lemma poll_once_succeeded w url img :
  timed_out g start (time_time env (clock_reads w)) = false ->
  succeeded url (http env (http_calls w) status) ->
  delivers img (http env (S (http_calls w)) (ModelScope.image_request url)) ->
  exists w',
    body w = (Ret (Some img), w')
    /\ http_calls w' = S (S (http_calls w))
    /\ sleeps (trace w') = sleeps (trace w)
    /\ requests (trace w') = ModelScope.image_request url :: status :: requests (trace w).
Proof.
  unfold timed_out, status. destruct w as [hc cr tr]. cbn [http_calls clock_reads trace].
  intros Ht Hs Hd.
  inversion Hs as [r d rest Hr Hj Hst Hout Ho].
  inversion Hd as [ir Hir Hc Hio].
  unfold body, ModelScope.poll_once. exec. rewrite Ht.
  rewrite <- Ho. unfold passes in Hr, Hir. rewrite Hr, Hj, Hst. cbn [from_option id].
  rewrite py_eq_str_refl, Hout. rewrite <- Hio, Hir, Hc. eexists. repeat split.
Qed.

Lemma poll_once_failed w msg :
  timed_out g start (time_time env (clock_reads w)) = false ->
  failed msg (http env (http_calls w) status) ->
  exists w',
    body w = (Raise (mk_exn RuntimeError
                       (lit "Image generation failed: " ++ py_str env msg)), w')
    /\ http_calls w' = S (http_calls w)
    /\ sleeps (trace w') = sleeps (trace w).
Proof.
  unfold timed_out, status. destruct w as [hc cr tr]. cbn [http_calls clock_reads trace].
  intros Ht Hf.
  inversion Hf as [r d Hr Hj Hst Hm Ho].
  unfold body, ModelScope.poll_once. exec. rewrite Ht.
  rewrite <- Ho. unfold passes in Hr. rewrite Hr, Hj, Hst, Hm. cbn [from_option id].
  replace (py_eq_str (VStr (lit "FAILED")) (lit "SUCCEED")) with false by (vm_compute; reflexivity).
  rewrite py_eq_str_refl. eexists. repeat split.
Qed.

Lemma poll_once_quiet : quiet_m body.
Proof.
  unfold body, ModelScope.poll_once. repeat quiet_step.
Qed.

Lemma poll_loop_quiet fuel : quiet_m (while_true fuel body).
Proof. apply quiet_while, poll_once_quiet. Qed.

Lemma poll_once_download_fails w url :
  timed_out g start (time_time env (clock_reads w)) = false ->
  succeeded url (http env (http_calls w) status) ->
  download_fails (http env (S (http_calls w)) (ModelScope.image_request url)) ->
  exists w',
    body w = (Ret None, w')
    /\ http_calls w' = S (S (http_calls w))
    /\ clock_reads w' = S (clock_reads w)
    /\ sleeps (trace w') = ModelScope.polling_interval g :: sleeps (trace w)
    /\ requests (trace w') = ModelScope.image_request url :: status :: requests (trace w).
Proof.
  unfold timed_out, status. destruct w as [hc cr tr]. cbn [http_calls clock_reads trace].
  intros Ht Hs Hd.
  inversion Hs as [r d rest Hr Hj Hst Hout Ho].
  unfold body, ModelScope.poll_once. exec. rewrite Ht.
  rewrite <- Ho. unfold passes in Hr. rewrite Hr, Hj, Hst. cbn [from_option id].
  rewrite py_eq_str_refl, Hout.
  inversion Hd as [e He Hio | ir Hir Hio].
  - rewrite He. eexists. repeat split.
  - unfold passes in Hir. apply not_false_is_true in Hir. rewrite Hir.
    cbn [is_RequestException exn_class]. eexists. repeat split.
Qed.
End Poll.

(** ** ModelScope: a run of [generate_image] *)

Section Run.
Variable env : Env.
Variable g : ModelScope.generator.
Variable prompt : str.
Variable task_id : value.

Let sent := take ModelScope.MAX_PROMPT_LENGTH prompt.
Let status := ModelScope.status_request env g task_id.
Let t0 := time_time env 0.

Lemma generate_image_submitted fuel :
  truthy (ModelScope.api_key g) = true ->
  has_surrogate (ModelScope.model g ++ sent) = false ->
  task_created task_id (http env 0 (ModelScope.submit_request g sent)) ->
  exists w1,
    ModelScope.generate_image env g prompt fuel init_world
    = while_true fuel (ModelScope.poll_once env g task_id t0) w1
    /\ http_calls w1 = 1%nat
    /\ clock_reads w1 = 1%nat
    /\ sleeps (trace w1) = []
    /\ requests (trace w1) = [ModelScope.submit_request g sent].
Proof.
  intros Hk He Hc. unfold ModelScope.generate_image.
  erewrite bind_ret_run by (apply validate_config_present; exact Hk).
  destruct (check_prompt_run prompt init_world) as (w1 & E1 & Hc1 & Hr1 & Hs1 & Hq1 & _).
  erewrite bind_ret_run by exact E1. fold sent.
  destruct w1 as [hc cr tr]. cbn [http_calls clock_reads trace init_world] in *. subst hc cr.
  erewrite bind_ret_run by reflexivity.
  match goal with
  | |- context [bind (ModelScope.submit env g sent) _ ?w] =>
      destruct (submit_created env g sent task_id w He Hc)
        as (w2 & E2 & Hc2 & Hr2 & Hs2 & Hq2)
  end.
  erewrite bind_ret_run by exact E2.
  destruct w2 as [hc cr tr2]. cbn [http_calls clock_reads trace] in *. subst hc cr.
  erewrite bind_ret_run by reflexivity. cbn [clock_reads]. fold t0.
  eexists. split; [reflexivity|]. cbn [http_calls clock_reads trace].
  rewrite sleeps_cons, requests_cons, Hs2, Hq2, sleeps_cons, requests_cons, Hs1, Hq1.
  repeat split.
Qed.

Lemma generate_image_pending n fuel :
  truthy (ModelScope.api_key g) = true ->
  has_surrogate (ModelScope.model g ++ sent) = false ->
  task_created task_id (http env 0 (ModelScope.submit_request g sent)) ->
  (forall k, (k < n)%nat ->
     timed_out g t0 (time_time env (1 + k)) = false
     /\ nonterminal (http env (1 + k) status)) ->
  exists w,
    ModelScope.generate_image env g prompt (n + fuel) init_world
    = while_true fuel (ModelScope.poll_once env g task_id t0) w
    /\ http_calls w = (1 + n)%nat
    /\ clock_reads w = (1 + n)%nat
    /\ sleeps (trace w) = replicate n (ModelScope.polling_interval g)
    /\ requests (trace w) = replicate n status ++ [ModelScope.submit_request g sent].
Proof.
  intros Hk He Hc Hn.
  destruct (generate_image_submitted (n + fuel) Hk He Hc)
    as (w1 & E1 & Hc1 & Hr1 & Hs1 & Hq1).
  destruct (poll_loop_nonterminal env g task_id t0 n w1 fuel) as (w & E & Hh & Hr & Hs & Hq & _).
  { intros k Hlt. rewrite Hc1, Hr1. apply Hn, Hlt. }
  exists w. rewrite E1, E, Hh, Hr, Hs, Hq, Hc1, Hr1, Hs1, Hq1, app_nil_r. repeat split.
Qed.
End Run.

(** C4: after a submission whose body could be encoded and which was
    accepted, when the first [n] status requests get
    non-terminal replies (a transport error, an error status, "PENDING" or any
    other status that is neither "SUCCEED" nor "FAILED"), no reading of the
    clock is past the timeout, status request [n] reports "SUCCEED" with [url]
    first in "output_images" and the download of [url] delivers [img], then
    [generate_image] returns [img] after exactly [n] sleeps of one polling
    interval each, and the last request it sent is the download of [url]. *)
Theorem polling_ends_with_image env g prompt task_id n url img fuel :
  truthy (ModelScope.api_key g) = true ->
  has_surrogate (ModelScope.model g ++ take ModelScope.MAX_PROMPT_LENGTH prompt) = false ->
  task_created task_id
    (http env 0
       (ModelScope.submit_request g (take ModelScope.MAX_PROMPT_LENGTH prompt))) ->
  (forall k, (k < n)%nat ->
     timed_out g (time_time env 0) (time_time env (1 + k)) = false
     /\ nonterminal (http env (1 + k) (ModelScope.status_request env g task_id))) ->
  timed_out g (time_time env 0) (time_time env (1 + n)) = false ->
  succeeded url (http env (1 + n) (ModelScope.status_request env g task_id)) ->
  delivers img (http env (2 + n) (ModelScope.image_request url)) ->
  (n < fuel)%nat ->
  exists w,
    ModelScope.generate_image env g prompt fuel init_world = (Ret img, w)
    /\ sleeps (trace w) = replicate n (ModelScope.polling_interval g)
    /\ requests (trace w)
       = ModelScope.image_request url
         :: replicate (S n) (ModelScope.status_request env g task_id)
         ++ [ModelScope.submit_request g (take ModelScope.MAX_PROMPT_LENGTH prompt)].
Proof.
  intros Hk He Hc Hn Ht Hs Hd Hf.
  replace fuel with (n + S (fuel - S n))%nat by lia.
  destruct (generate_image_pending env g prompt task_id n (S (fuel - S n)) Hk He Hc Hn)
    as (w & E & Hh & Hr & Hsl & Hq).
  rewrite E. cbn [while_true].
  destruct (poll_once_succeeded env g task_id (time_time env 0) w url img)
    as (w' & E' & _ & Hsl' & Hq').
  { now rewrite Hr. }
  { now rewrite Hh. }
  { now rewrite Hh. }
  rewrite E'. exists w'. rewrite Hsl', Hq', Hsl, Hq. repeat split.
Qed.


(** C6: after a submission whose body could be encoded and which was
    accepted, when a status reply reports "FAILED" with the message [msg],
    [generate_image] raises a [RuntimeError] whose text contains [msg]; the
    handler of transport errors does not catch it, no sleep follows it. *)
Theorem polling_task_failed env g prompt task_id n msg fuel :
  truthy (ModelScope.api_key g) = true ->
  has_surrogate (ModelScope.model g ++ take ModelScope.MAX_PROMPT_LENGTH prompt) = false ->
  task_created task_id
    (http env 0
       (ModelScope.submit_request g (take ModelScope.MAX_PROMPT_LENGTH prompt))) ->
  (forall k, (k < n)%nat ->
     timed_out g (time_time env 0) (time_time env (1 + k)) = false
     /\ nonterminal (http env (1 + k) (ModelScope.status_request env g task_id))) ->
  timed_out g (time_time env 0) (time_time env (1 + n)) = false ->
  failed (VStr msg) (http env (1 + n) (ModelScope.status_request env g task_id)) ->
  (n < fuel)%nat ->
  exists e w,
    ModelScope.generate_image env g prompt fuel init_world = (Raise e, w)
    /\ exn_class e = RuntimeError
    /\ contains (exn_msg e) msg
    /\ http_calls w = (2 + n)%nat
    /\ sleeps (trace w) = replicate n (ModelScope.polling_interval g).
Proof.
  intros Hk He Hc Hn Ht Hfl Hf.
  replace fuel with (n + S (fuel - S n))%nat by lia.
  destruct (generate_image_pending env g prompt task_id n (S (fuel - S n)) Hk He Hc Hn)
    as (w & E & Hh & Hr & Hsl & Hq).
  rewrite E. cbn [while_true].
  destruct (poll_once_failed env g task_id (time_time env 0) w (VStr msg))
    as (w' & E' & Hh' & Hsl').
  { now rewrite Hr. }
  { now rewrite Hh. }
  rewrite E'. do 2 eexists. split; [reflexivity|].
  rewrite Hh', Hsl', Hh, Hsl. repeat split.
  exists (lit "Image generation failed: "), []. cbn [exn_msg mk_exn py_str].
  now rewrite app_nil_r.
Qed.

(** C5: when the submission, its body encoded, is answered by a 2xx response
    whose body has no
    "task_id" (a dict without that key, a JSON value that is not a dict, or a
    body that is not JSON), [generate_image] raises, whatever the fuel: the
    one request sent is the submission, the clock is never read and nothing
    sleeps, so the loop is not entered. *)
Theorem submission_without_task_id env g prompt r fuel :
  truthy (ModelScope.api_key g) = true ->
  has_surrogate (ModelScope.model g ++ take ModelScope.MAX_PROMPT_LENGTH prompt) = false ->
  http env 0 (ModelScope.submit_request g (take ModelScope.MAX_PROMPT_LENGTH prompt))
  = Reply r ->
  200 <= status_code r < 300 ->
  lacks_task_id (resp_json r) ->
  exists e w,
    ModelScope.generate_image env g prompt fuel init_world = (Raise e, w)
    /\ requests (trace w)
       = [ModelScope.submit_request g (take ModelScope.MAX_PROMPT_LENGTH prompt)]
    /\ http_calls w = 1%nat
    /\ clock_reads w = 0%nat
    /\ sleeps (trace w) = [].
Proof.
  intros Hk He Ho Hs Hl. unfold ModelScope.generate_image.
  erewrite bind_ret_run by (apply validate_config_present; exact Hk).
  destruct (check_prompt_run prompt init_world) as (w1 & E1 & Hc1 & Hr1 & Hs1 & Hq1 & _).
  erewrite bind_ret_run by exact E1.
  destruct w1 as [hc cr tr]. cbn [http_calls clock_reads trace init_world] in *. subst hc cr.
  erewrite bind_ret_run by reflexivity.
  match goal with
  | |- context [bind (ModelScope.submit env g ?p) _ ?w] =>
      destruct (submit_rejected env g p r w He Ho (success_passes r Hs) Hl)
        as (e & w2 & E2 & Hc2 & Hr2 & Hs2 & Hq2)
  end.
  erewrite bind_raise_run by exact E2.
  exists e, w2. split; [reflexivity|].
  cbn [http_calls clock_reads trace] in *.
  rewrite Hq2, Hc2, Hr2, Hs2, sleeps_cons, requests_cons, Hs1, Hq1. repeat split.
Qed.

Lemma posts_cons ev tr :
  posts (ev :: tr)
  = match ev with
    | EvHttp r => match req_method r with POST => r :: posts tr | GET => posts tr end
    | _ => posts tr
    end.
Proof.
  destruct ev as [r| | | |]; try reflexivity.
  unfold posts. cbn [omap list_omap]. now destruct (req_method r).
Qed.

Lemma no_requests_no_posts tr : requests tr = [] -> posts tr = [].
Proof.
  induction tr as [|ev tr IH]; [reflexivity|].
  rewrite requests_cons, posts_cons. destruct ev; try exact IH. discriminate.
Qed.

Lemma generate_image_until_submit env g prompt fuel :
  truthy (ModelScope.api_key g) = true ->
  exists w0,
    ModelScope.generate_image env g prompt fuel init_world
    = bind (ModelScope.submit env g (take ModelScope.MAX_PROMPT_LENGTH prompt))
        (fun task_id =>
           bind (read_clock env)
             (fun start =>
                while_true fuel (ModelScope.poll_once env g task_id start))) w0
    /\ http_calls w0 = 0%nat
    /\ clock_reads w0 = 0%nat
    /\ sleeps (trace w0) = []
    /\ requests (trace w0) = []
    /\ logged ERROR (trace w0) = []
    /\ logged WARNING (trace w0)
       = if (ModelScope.MAX_PROMPT_LENGTH <? length prompt)%nat
         then [truncation_warning prompt] else [].
Proof.
  intros Hk. unfold ModelScope.generate_image.
  erewrite bind_ret_run by (apply validate_config_present; exact Hk).
  unfold ModelScope.check_prompt.
  destruct (ModelScope.MAX_PROMPT_LENGTH <? length prompt)%nat eqn:E.
  - eexists. split; [reflexivity|]. repeat split.
  - apply Nat.ltb_ge in E. rewrite (take_ge prompt) by exact E.
    eexists. split; [reflexivity|]. repeat split.
Qed.

Lemma generate_image_unencodable env g prompt fuel :
  truthy (ModelScope.api_key g) = true ->
  has_surrogate (ModelScope.model g ++ take ModelScope.MAX_PROMPT_LENGTH prompt) = true ->
  exists msg w,
    ModelScope.generate_image env g prompt fuel init_world
    = (Raise (mk_exn UnicodeEncodeError msg), w)
    /\ requests (trace w) = []
    /\ clock_reads w = 0%nat
    /\ logged WARNING (trace w)
       = if (ModelScope.MAX_PROMPT_LENGTH <? length prompt)%nat
         then [truncation_warning prompt] else [].
Proof.
  intros Hk He.
  destruct (generate_image_until_submit env g prompt fuel Hk)
    as (w0 & E & _ & Hr & _ & Hq & _ & Hl).
  destruct (submit_unencodable env g _ w0 He) as [msg Es].
  exists msg, w0. rewrite E. erewrite bind_raise_run by exact Es. repeat split; assumption.
Qed.

Lemma generate_image_grows env g prompt fuel :
  truthy (ModelScope.api_key g) = true ->
  has_surrogate (ModelScope.model g ++ take ModelScope.MAX_PROMPT_LENGTH prompt) = false ->
  exists w1,
    ModelScope.check_prompt prompt init_world = (Ret (take ModelScope.MAX_PROMPT_LENGTH prompt), w1)
    /\ grows (EvHttp (ModelScope.submit_request g (take ModelScope.MAX_PROMPT_LENGTH prompt))
              :: EvLog INFO (lit "Submitting ModelScope task for model: " ++ ModelScope.model g)
              :: trace w1)
             (trace (snd (ModelScope.generate_image env g prompt fuel init_world))).
Proof.
  intros Hk He. unfold ModelScope.generate_image.
  erewrite bind_ret_run by (apply validate_config_present; exact Hk).
  destruct (check_prompt_run prompt init_world) as (w1 & E1 & _).
  exists w1. split; [exact E1|].
  erewrite bind_ret_run by exact E1.
  erewrite bind_ret_run by reflexivity.
  match goal with
  | |- context [bind (ModelScope.submit env g ?p) ?k ?w] =>
      pose proof (submit_posts env g p w He) as Hg;
      assert (Hk' : forall a, quiet_m (k a)) by
        (intros a; cbv beta; apply quiet_bind; [apply quiet_read_clock|];
         intros t; apply quiet_while, poll_once_quiet);
      unfold bind at 1
  end.
  destruct (ModelScope.submit env g _ _) as [[tid|e|] w2]; cbn [snd trace] in Hg |- *;
    try exact Hg.
  eapply grows_trans; [exact Hg|apply Hk'].
Qed.


(** C2, amended: without an API key (none, or the empty string)
    [ModelScopeGenerator.validate_config] raises a [ValueError], and
    [generate_image], which calls it first, raises it in the world it started
    in: nothing was sent.  [ReplicateGenerator.validate_config] never raises:
    it returns whether the key is there. *)
Theorem missing_api_key :
  (forall env g prompt fuel w,
      truthy (ModelScope.api_key g) = false ->
      ModelScope.validate_config g w
      = (Raise (mk_exn ValueError (lit "ModelScope API Key is required")), w)
      /\ ModelScope.generate_image env g prompt fuel w
         = (Raise (mk_exn ValueError (lit "ModelScope API Key is required")), w))
  /\ (forall g w,
        Replicate.validate_config g w = (Ret (truthy (Replicate.api_key g)), w)).
Proof.
  split.
  - intros env g prompt fuel w H. split; [now apply validate_config_absent|].
    unfold ModelScope.generate_image. erewrite bind_raise_run; [reflexivity|].
    now apply validate_config_absent.
  - reflexivity.
Qed.

Lemma contains_suffix pre m : contains (pre ++ m) m.
Proof. exists pre, []. now rewrite app_nil_r. Qed.

Lemma contains_app_l pre s m : contains s m -> contains (pre ++ s) m.
Proof.
  intros (a & b & ->). exists (pre ++ a), b. now rewrite <- app_assoc.
Qed.

(** ** Replicate: a run of [generate_image] *)

Section Direct.
Variable env : Env.
Variable g : Replicate.generator.

Lemma download_image_run url w :
  requests (trace (snd (Replicate._download_image env url w)))
  = download_request url :: requests (trace w)
  /\ match http env (http_calls w) (download_request url) with
       | Fails e =>
           fst (Replicate._download_image env url w)
           = Raise (mk_exn PlainException (lit "下载图片失败: " ++ exn_msg e))
       | Reply r =>
           fst (Replicate._download_image env url w)
           = if bool_decide (status_code r = 200)
             then Ret (resp_content r)
             else Raise (mk_exn PlainException
                           (lit "下载图片失败: " ++ lit "HTTP "
                            ++ py_str env (VInt (status_code r))))
       end.
Proof.
  destruct w as [hc cr tr]. cbn [http_calls clock_reads trace].
  unfold Replicate._download_image, download_request. exec.
  destruct (http env hc _) as [r|e]; [destruct (bool_decide (status_code r = 200))|];
    repeat split.
Qed.
End Direct.

Lemma replicate_run_failed env g prompt aspect_ratio kwargs e :
  replicate_installed env = true ->
  client_run env (Replicate.api_key g) (Replicate.model g)
    (Replicate.input_params g prompt
       (Replicate._get_dimensions (default (lit "3:4") aspect_ratio)).1
       (Replicate._get_dimensions (default (lit "3:4") aspect_ratio)).2 kwargs) = inl e ->
  exists w,
    Replicate.generate_image env g prompt aspect_ratio kwargs init_world
    = (Raise (mk_exn RuntimeError (lit "图片生成失败: " ++ exn_msg e)), w)
    /\ requests (trace w) = [].
Proof.
  intros Hi. unfold Replicate.generate_image. rewrite Hi. cbn [negb].
  destruct (Replicate._get_dimensions _) as [wd ht]. cbn [fst snd].
  intros He. unfold init_world. exec. rewrite He. eexists. split; reflexivity.
Qed.

Lemma replicate_run_returned env g prompt aspect_ratio kwargs output u :
  replicate_installed env = true ->
  client_run env (Replicate.api_key g) (Replicate.model g)
    (Replicate.input_params g prompt
       (Replicate._get_dimensions (default (lit "3:4") aspect_ratio)).1
       (Replicate._get_dimensions (default (lit "3:4") aspect_ratio)).2 kwargs) = inr output ->
  picks output u ->
  exists w0,
    Replicate.generate_image env g prompt aspect_ratio kwargs init_world
    = wrap_failure (Replicate._download_image env (py_str env u) w0)
    /\ http_calls w0 = 0%nat
    /\ requests (trace w0) = [].
Proof.
  intros Hi. unfold Replicate.generate_image. rewrite Hi. cbn [negb].
  destruct (Replicate._get_dimensions _) as [wd ht]. cbn [fst snd].
  intros Ho Hp.
  assert (Hfirst : forall w,
             (match output with VList _ => py_first output | _ => ret output end) w
             = (Ret u, w)).
  { intros w. destruct Hp as [u rest|v Hv]; [reflexivity|].
    destruct v; try reflexivity. now destruct (Hv l). }
  unfold init_world. unfold bind at 1. cbn [log emit http_calls clock_reads trace].
  unfold try_except at 1, bind at 1, run_model. rewrite Ho.
  cbn [http_calls clock_reads trace].
  erewrite bind_ret_run by apply Hfirst.
  match goal with
  | |- context [Replicate._download_image env _ ?w] => exists w
  end.
  split; [|split; reflexivity].
  destruct (Replicate._download_image env (py_str env u) _) as [[b|e|] w1]; reflexivity.
Qed.

(** C9: with the [replicate] package installed, an exception of [client.run]
    comes back as a [RuntimeError] whose text contains the text of that
    exception, and nothing is downloaded.  When [client.run] returns, the URL
    is the first element of a list, or the output itself when it is not a
    list; it is the one address requested, and a transport error of that
    download, or a status other than 200, comes back as a [RuntimeError] whose
    text contains the text of the original exception ("HTTP <status>" in the
    second case); a 200 gives the bytes of the response. *)
Theorem replicate_failures_wrapped env g prompt aspect_ratio kwargs :
  replicate_installed env = true ->
  let dims := Replicate._get_dimensions (default (lit "3:4") aspect_ratio) in
  let input := Replicate.input_params g prompt dims.1 dims.2 kwargs in
  let run := Replicate.generate_image env g prompt aspect_ratio kwargs init_world in
  (forall e,
      client_run env (Replicate.api_key g) (Replicate.model g) input = inl e ->
      exists m, fst run = Raise (mk_exn RuntimeError m)
                /\ contains m (exn_msg e)
                /\ requests (trace (snd run)) = [])
  /\ (forall output u,
        client_run env (Replicate.api_key g) (Replicate.model g) input = inr output ->
        picks output u ->
        let download := download_request (py_str env u) in
        requests (trace (snd run)) = [download]
        /\ (forall e, http env 0 download = Fails e ->
              exists m, fst run = Raise (mk_exn RuntimeError m)
                        /\ contains m (exn_msg e))
        /\ (forall r, http env 0 download = Reply r -> status_code r ≠ 200 ->
              exists m, fst run = Raise (mk_exn RuntimeError m)
                        /\ contains m (lit "HTTP " ++ py_str env (VInt (status_code r))))
        /\ (forall r, http env 0 download = Reply r -> status_code r = 200 ->
              fst run = Ret (resp_content r))).
Proof.
  intros Hi dims input run0. split.
  - intros e He.
    destruct (replicate_run_failed env g prompt aspect_ratio kwargs e Hi He) as (w & E & Hq).
    subst run0. rewrite E. eexists. split; [reflexivity|].
    split; [apply contains_suffix|exact Hq].
  - intros output u Ho Hp download.
    destruct (replicate_run_returned env g prompt aspect_ratio kwargs output u Hi Ho Hp)
      as (w0 & E & Hc & Hq0).
    subst run0. rewrite E. clear E.
    destruct (download_image_run env (py_str env u) w0) as (Hq & Hd).
    rewrite Hc in Hd. fold download in Hd, Hq. rewrite Hq0 in Hq.
    destruct (Replicate._download_image env (py_str env u) w0) as [res w1].
    cbn [fst snd] in *.
    split; [|split; [|split]].
    + destruct res as [b|e|]; cbn [wrap_failure snd trace]; rewrite ?requests_cons; exact Hq.
    + intros e He. rewrite He in Hd. subst res. cbn [wrap_failure fst].
      eexists. split; [reflexivity|].
      cbn [exn_msg mk_exn]. apply contains_app_l, contains_suffix.
    + intros r Hr Hs. rewrite Hr in Hd. rewrite bool_decide_eq_false_2 in Hd by exact Hs.
      subst res. cbn [wrap_failure fst]. eexists. split; [reflexivity|].
      cbn [exn_msg mk_exn]. do 2 apply contains_app_l. exists [], []. now rewrite app_nil_r.
    + intros r Hr Hs. rewrite Hr in Hd. rewrite bool_decide_eq_true_2 in Hd by exact Hs.
      subst res. reflexivity.
Qed.

Lemma polling_ends_with_image_witness :
  exists w,
    ModelScope.generate_image env_pending g0 a_prompt 3 init_world = (Ret png, w)
    /\ sleeps (trace w) = replicate 2 (ModelScope.polling_interval g0)
    /\ requests (trace w)
       = ModelScope.image_request (VStr image_url)
         :: replicate 3 (ModelScope.status_request env_pending g0 (VStr (lit "t1")))
         ++ [ModelScope.submit_request g0 (take ModelScope.MAX_PROMPT_LENGTH a_prompt)].
Proof.
  apply (polling_ends_with_image env_pending g0 a_prompt (VStr (lit "t1")) 2
           (VStr image_url) png 3).
  - reflexivity.
  - vm_compute. reflexivity.
  - vm_compute. econstructor; [reflexivity|reflexivity|vm_compute; reflexivity].
  - intros k Hk. destruct k as [|[|k]]; [| |lia].
    + split; [vm_compute; reflexivity|].
      vm_compute. eapply nonterminal_status;
        [reflexivity|reflexivity|vm_compute; discriminate|vm_compute; discriminate].
    + split; [vm_compute; reflexivity|].
      vm_compute. eapply nonterminal_status;
        [reflexivity|reflexivity|vm_compute; discriminate|vm_compute; discriminate].
  - vm_compute. reflexivity.
  - vm_compute. econstructor;
      [reflexivity|reflexivity|vm_compute; reflexivity|vm_compute; reflexivity].
  - vm_compute. econstructor; reflexivity.
  - lia.
Defined.

Example pending_pending_succeed :
  let run := ModelScope.generate_image env_pending g0 a_prompt 3 init_world in
  fst run = Ret png
  /\ sleeps (trace (snd run)) = [2; 2]%float
  /\ map req_url (requests (trace (snd run)))
     = [VStr image_url; VStr task_url; VStr task_url; VStr task_url; VStr submit_url].
Proof. vm_compute. repeat split. Qed.

Example refused_refused_succeed :
  let run := ModelScope.generate_image env_flaky g0 a_prompt 3 init_world in
  fst run = Ret png
  /\ sleeps (trace (snd run)) = [2; 2]%float
  /\ map req_url (requests (trace (snd run)))
     = [VStr image_url; VStr task_url; VStr task_url; VStr task_url; VStr submit_url].
Proof. vm_compute. repeat split. Qed.


Lemma polling_task_failed_witness :
  exists e w,
    ModelScope.generate_image env_failed g0 a_prompt 5 init_world = (Raise e, w)
    /\ exn_class e = RuntimeError
    /\ contains (exn_msg e) (lit "bad prompt")
    /\ http_calls w = (2 + 1)%nat
    /\ sleeps (trace w) = replicate 1 (ModelScope.polling_interval g0).
Proof.
  apply (polling_task_failed env_failed g0 a_prompt (VStr (lit "t1")) 1 (lit "bad prompt") 5).
  - reflexivity.
  - vm_compute. reflexivity.
  - vm_compute. econstructor; [reflexivity|reflexivity|vm_compute; reflexivity].
  - intros k Hk. destruct k as [|k]; [|lia].
    split; [vm_compute; reflexivity|].
    vm_compute. eapply nonterminal_status;
      [reflexivity|reflexivity|vm_compute; discriminate|vm_compute; discriminate].
  - vm_compute. reflexivity.
  - vm_compute. econstructor;
      [reflexivity|reflexivity|vm_compute; reflexivity|vm_compute; reflexivity].
  - lia.
Defined.

Lemma submission_without_task_id_witness :
  exists e w,
    ModelScope.generate_image env_no_task_id g0 a_prompt 5 init_world = (Raise e, w)
    /\ requests (trace w) = [ModelScope.submit_request g0 (take ModelScope.MAX_PROMPT_LENGTH a_prompt)]
    /\ http_calls w = 1%nat
    /\ clock_reads w = 0%nat
    /\ sleeps (trace w) = [].
Proof.
  apply (submission_without_task_id env_no_task_id g0 a_prompt
           (Response 200 [] [] (inr (VDict {[ lit "request_id" := VStr (lit "r1") ]})) []) 5).
  - reflexivity.
  - vm_compute. reflexivity.
  - vm_compute. reflexivity.
  - cbn [status_code]. lia.
  - intros d Hd. cbn [resp_json] in Hd. injection Hd as <-. vm_compute. reflexivity.
Defined.


Example long_prompt_is_cut :
  let w := snd (ModelScope.generate_image env_pending g0 long_prompt 3 init_world) in
  length long_prompt = 1805%nat
  /\ has_surrogate (ModelScope.model g0 ++ long_prompt) = false
  /\ map req_data (posts (trace w))
     = [Some (utf8_bytes (json_dumps (ModelScope.payload g0 (repeat 0x732B%N 1800))))]
  /\ logged WARNING (trace w)
     = [lit "Prompt length (1805) exceeds limit (1800). Truncating..."].
Proof. vm_compute. repeat split. Qed.

Example utf8_bytes_cjk :
  utf8_bytes (lit "一只猫") = [xe4; xb8; x80; xe5; x8f; xaa; xe7; x8c; xab]%byte.
Proof. vm_compute. reflexivity. Qed.

(** The JSON text of a payload whose prompt is [a], a quote and a line
    feed; on the right the quotes are written as apostrophes. *)
Example json_dumps_escapes :
  json_dumps [(lit "model", lit "m"); (lit "prompt", [97; 34; 10]%N)]
  = map (fun c => if (c =? 39)%N then 34%N else c)
      (lit "{'model': 'm', 'prompt': 'a\'\n'}").
Proof. vm_compute. reflexivity. Qed.

Lemma missing_api_key_witness :
  ModelScope.validate_config (ModelScope.init None None None None None) init_world
  = (Raise (mk_exn ValueError (lit "ModelScope API Key is required")), init_world)
  /\ ModelScope.generate_image env_pending (ModelScope.init None None None None None) a_prompt 3 init_world
     = (Raise (mk_exn ValueError (lit "ModelScope API Key is required")), init_world).
Proof.
  apply (proj1 missing_api_key env_pending (ModelScope.init None None None None None)
           a_prompt 3%nat init_world).
  reflexivity.
Defined.

(** C2 as stated fails for the Replicate generator: without an API key its
    [validate_config] returns [False], it does not raise. *)
Lemma replicate_validate_config_does_not_raise :
  Replicate.validate_config (Replicate.init None None) init_world = (Ret false, init_world)
  /\ ~ (exists e w,
          Replicate.validate_config (Replicate.init None None) init_world = (Raise e, w)).
Proof.
  split; [reflexivity|]. intros (e & w & H). discriminate H.
Qed.

Example replicate_runs_without_api_key :
  let run := Replicate.generate_image env_pending (Replicate.init None None) a_prompt
               None ∅ init_world in
  exists m input,
    run.1 = Raise (mk_exn RuntimeError m)
    /\ trace run.2 = [EvLog ERROR (lit "Replicate 生成失败: model not found");
                      EvRun None (Replicate.model (Replicate.init None None)) input;
                      EvLog INFO (lit "Replicate 生成图片: model=" ++
                                  Replicate.model (Replicate.init None None)
                                  ++ lit ", aspect_ratio=3:4")].
Proof. vm_compute. do 2 eexists. split; reflexivity. Qed.

(** C1, evaluated on the code: the task has succeeded and the download of its
    image is answered by a 500.  Nothing is raised: the handler of polling
    errors catches the [HTTPError], logs it as a polling error and sleeps, and
    the loop asks for the status again and downloads again. *)
Theorem download_failure_is_retried :
  let run := ModelScope.generate_image env_download_500 g0 a_prompt 3 init_world in
  fst run = Ret png
  /\ sleeps (trace (snd run)) = [2]%float
  /\ logged ERROR (trace (snd run))
     = [lit "Error while polling task status: 500 Server Error"]
  /\ map req_url (requests (trace (snd run)))
     = [VStr image_url; VStr task_url; VStr image_url; VStr task_url; VStr submit_url].
Proof. vm_compute. repeat split. Qed.

Lemma replicate_failures_wrapped_witness :
  exists m,
    fst (Replicate.generate_image env_pending (Replicate.init (Some (lit "r8_test")) None)
           a_prompt None ∅ init_world)
    = Raise (mk_exn RuntimeError m)
    /\ contains m (lit "model not found")
    /\ requests (trace (snd (Replicate.generate_image env_pending
                               (Replicate.init (Some (lit "r8_test")) None)
                               a_prompt None ∅ init_world))) = [].
Proof.
  apply (proj1 (replicate_failures_wrapped env_pending
                  (Replicate.init (Some (lit "r8_test")) None) a_prompt None ∅ eq_refl)
           (mk_exn (OtherException (lit "ReplicateError")) (lit "model not found"))).
  reflexivity.
Defined.

Example replicate_first_url_of_list :
  let run := Replicate.generate_image env_replicate
               (Replicate.init (Some (lit "r8_test")) None) a_prompt (Some (lit "16:9")) ∅
               init_world in
  fst run = Raise (mk_exn RuntimeError (lit "图片生成失败: 下载图片失败: HTTP 404"))
  /\ map req_url (requests (trace (snd run))) = [VStr image_url].
Proof. vm_compute. repeat split. Qed.



(** * Further properties of the two generators *)

(** ** The events of a run *)

Section Adds.
Context (P : event -> Prop).

Lemma adds_trans tr1 tr2 tr3 : adds P tr1 tr2 -> adds P tr2 tr3 -> adds P tr1 tr3.
Proof. intros H12 H23. induction H23; [assumption|]. now constructor. Qed.

Lemma adds_app tr tr' : adds P tr tr' -> exists evs, tr' = evs ++ tr /\ Forall P evs.
Proof.
  induction 1 as [|ev tr' Hev _ (evs & -> & Hall)].
  - exists []. split; [reflexivity|constructor].
  - exists (ev :: evs). split; [reflexivity|now constructor].
Qed.

Lemma only_ret {A} (a : A) : only_adds P (ret a).
Proof. intros w. apply adds_refl. Qed.

Lemma only_raise {A} e : only_adds P (@raise A e).
Proof. intros w. apply adds_refl. Qed.

Lemma only_bind {A B} (m : M A) (k : A -> M B) :
  only_adds P m -> (forall a, only_adds P (k a)) -> only_adds P (bind m k).
Proof.
  intros Hm Hk w. unfold bind. specialize (Hm w).
  destruct (m w) as [[a|e|] w1]; cbn [snd] in *; try assumption.
  eapply adds_trans; [eassumption|apply Hk].
Qed.

Lemma only_try_except {A} (m : M A) handles h :
  only_adds P m -> (forall e, only_adds P (h e)) -> only_adds P (try_except m handles h).
Proof.
  intros Hm Hh w. unfold try_except. specialize (Hm w).
  destruct (m w) as [[a|e|] w1]; cbn [snd] in *; try assumption.
  destruct (handles e); cbn [snd]; try assumption.
  eapply adds_trans; [eassumption|apply Hh].
Qed.

Lemma only_while {A} (body : M (option A)) fuel :
  only_adds P body -> only_adds P (while_true fuel body).
Proof.
  intros Hb. induction fuel as [|fuel IH]; intros w; cbn [while_true]; [apply adds_refl|].
  specialize (Hb w).
  destruct (body w) as [[[a|]|e|] w1]; cbn [snd] in *; try assumption.
  eapply adds_trans; [eassumption|apply IH].
Qed.

Lemma only_emit ev : P ev -> only_adds P (emit ev).
Proof. intros H w. apply adds_cons; [assumption|apply adds_refl]. Qed.

Lemma only_log l msg : P (EvLog l msg) -> only_adds P (log l msg).
Proof. apply only_emit. Qed.

Lemma only_sleep d : P (EvSleep d) -> only_adds P (sleep d).
Proof. apply only_emit. Qed.

Lemma only_read_clock env : (forall t, P (EvTime t)) -> only_adds P (read_clock env).
Proof. intros H w. apply adds_cons; [apply H|apply adds_refl]. Qed.

Lemma only_send env r : P (EvHttp r) -> only_adds P (send env r).
Proof.
  intros H w. unfold send.
  destruct (http env (http_calls w) r); apply adds_cons; try assumption; apply adds_refl.
Qed.

Lemma only_raise_for_status r : only_adds P (raise_for_status r).
Proof. unfold raise_for_status. case_match; [apply only_raise|apply only_ret]. Qed.

Lemma only_json r : only_adds P (json r).
Proof. unfold json. case_match; [apply only_raise|apply only_ret]. Qed.

Lemma only_py_get data key dflt : only_adds P (py_get data key dflt).
Proof. unfold py_get. case_match; first [apply only_raise|apply only_ret]. Qed.

Lemma only_py_getitem data key : only_adds P (py_getitem data key).
Proof. unfold py_getitem. repeat case_match; first [apply only_raise|apply only_ret]. Qed.

Lemma only_encode_utf8 s : only_adds P (encode_utf8 s).
Proof. unfold encode_utf8. case_match; [apply only_raise|apply only_ret]. Qed.

Lemma only_py_first v : only_adds P (py_first v).
Proof. unfold py_first. repeat case_match; first [apply only_raise|apply only_ret]. Qed.
End Adds.

Ltac only_step tac :=
  match goal with
  | |- only_adds _ (bind _ _) => apply only_bind; [|intros ?]
  | |- only_adds _ (try_except _ _ _) => apply only_try_except; [|intros ?]
  | |- only_adds _ (while_true _ _) => apply only_while
  | |- only_adds _ (ret _) => apply only_ret
  | |- only_adds _ (raise _) => apply only_raise
  | |- only_adds _ (send _ _) => apply only_send; tac
  | |- only_adds _ (log _ _) => apply only_log; tac
  | |- only_adds _ (sleep _) => apply only_sleep; tac
  | |- only_adds _ (read_clock _) => apply only_read_clock; intros ?; tac
  | |- only_adds _ (raise_for_status _) => apply only_raise_for_status
  | |- only_adds _ (json _) => apply only_json
  | |- only_adds _ (py_get _ _ _) => apply only_py_get
  | |- only_adds _ (py_getitem _ _) => apply only_py_getitem
  | |- only_adds _ (py_first _) => apply only_py_first
  | |- only_adds _ (encode_utf8 _) => apply only_encode_utf8
  | |- only_adds _ (if ?b then _ else _) => destruct b
  | |- only_adds _ (match ?x with _ => _ end) => destruct x
  end.

Lemma generate_image_run_events env g prompt fuel :
  only_adds (run_event g) (ModelScope.generate_image env g prompt fuel).
Proof.
  unfold ModelScope.generate_image, ModelScope.validate_config, ModelScope.check_prompt,
    ModelScope.submit, ModelScope.poll_once.
  repeat only_step ltac:(first [exact I | reflexivity]).
Qed.

Lemma poll_loop_events env g task_id start fuel :
  only_adds (poll_event env g task_id)
    (while_true fuel (ModelScope.poll_once env g task_id start)).
Proof.
  unfold ModelScope.poll_once.
  repeat only_step ltac:(first [exact I | reflexivity | left; reflexivity
                               | right; eexists; reflexivity]).
Qed.

Lemma sleeps_app tr1 tr2 : sleeps (tr1 ++ tr2) = sleeps tr1 ++ sleeps tr2.
Proof. apply omap_app. Qed.

Lemma requests_app tr1 tr2 : requests (tr1 ++ tr2) = requests tr1 ++ requests tr2.
Proof. apply omap_app. Qed.

Lemma Forall_sleeps (Q : float -> Prop) evs :
  Forall (fun ev => match ev with EvSleep d => Q d | _ => True end) evs ->
  Forall Q (sleeps evs).
Proof.
  induction 1 as [|ev evs Hev _ IH]; [constructor|].
  rewrite sleeps_cons. destruct ev; try exact IH. now constructor.
Qed.

Lemma Forall_requests (Q : request -> Prop) evs :
  Forall (fun ev => match ev with EvHttp r => Q r | _ => True end) evs ->
  Forall Q (requests evs).
Proof.
  induction 1 as [|ev evs Hev _ IH]; [constructor|].
  rewrite requests_cons. destruct ev; try exact IH. now constructor.
Qed.

(** X1: whatever the replies and the clock, every sleep of a run lasts the
    polling interval of the generator. *)
Theorem every_sleep_is_the_polling_interval env g prompt fuel :
  Forall (fun d => d = ModelScope.polling_interval g)
    (sleeps (trace (snd (ModelScope.generate_image env g prompt fuel init_world)))).
Proof.
  destruct (adds_app _ _ _ (generate_image_run_events env g prompt fuel init_world))
    as (evs & -> & Hall).
  rewrite sleeps_app. cbn [init_world trace]. rewrite app_nil_r.
  apply Forall_sleeps. eapply Forall_impl; [exact Hall|].
  intros [] H; try exact I. exact H.
Qed.

(** X2: after an accepted submission every later request of the run is the
    status request of the returned task id or a download without headers. *)
Theorem requests_after_submission env g prompt task_id fuel :
  truthy (ModelScope.api_key g) = true ->
  has_surrogate (ModelScope.model g ++ take ModelScope.MAX_PROMPT_LENGTH prompt) = false ->
  task_created task_id
    (http env 0
       (ModelScope.submit_request g (take ModelScope.MAX_PROMPT_LENGTH prompt))) ->
  exists later,
    requests (trace (snd (ModelScope.generate_image env g prompt fuel init_world)))
    = later ++ [ModelScope.submit_request g (take ModelScope.MAX_PROMPT_LENGTH prompt)]
    /\ Forall (fun r =>
                 r = ModelScope.status_request env g task_id
                 \/ exists url, r = ModelScope.image_request url /\ req_headers r = ∅)
              later.
Proof.
  intros Hk He Hc.
  destruct (generate_image_submitted env g prompt task_id fuel Hk He Hc)
    as (w1 & E & _ & _ & _ & Hq).
  rewrite E.
  destruct (adds_app _ _ _ (poll_loop_events env g task_id (time_time env 0) fuel w1))
    as (evs & -> & Hall).
  exists (requests evs). rewrite requests_app, Hq. split; [reflexivity|].
  apply Forall_requests. eapply Forall_impl; [exact Hall|].
  intros [r| | | |] H; try exact I. cbn [poll_event] in H.
  destruct H as [->|[url ->]]; [now left|right]. now exists url.
Qed.

Lemma requests_after_submission_witness :
  exists later,
    requests (trace (snd (ModelScope.generate_image env_pending g0 a_prompt 5 init_world)))
    = later ++ [ModelScope.submit_request g0 (take ModelScope.MAX_PROMPT_LENGTH a_prompt)]
    /\ Forall (fun r =>
                 r = ModelScope.status_request env_pending g0 (VStr (lit "t1"))
                 \/ exists url, r = ModelScope.image_request url /\ req_headers r = ∅)
              later.
Proof.
  apply (requests_after_submission env_pending g0 a_prompt (VStr (lit "t1")) 5).
  - reflexivity.
  - vm_compute. reflexivity.
  - vm_compute. econstructor; [reflexivity|reflexivity|vm_compute; reflexivity].
Defined.

(** ** ModelScope: a submission that fails *)

Lemma logged_error_cons ev tr :
  logged ERROR (ev :: tr)
  = match ev with
    | EvLog ERROR m => m :: logged ERROR tr
    | _ => logged ERROR tr
    end.
Proof. destruct ev as [| | |[]|]; reflexivity. Qed.

Section SubmitFailure.
Variable env : Env.
Variable g : ModelScope.generator.
Variable prompt : str.
Hypothesis He : has_surrogate (ModelScope.model g ++ prompt) = false.

Lemma submit_transport_failure e w :
  http env (http_calls w) (ModelScope.submit_request g prompt) = Fails e ->
  exists w',
    ModelScope.submit env g prompt w = (Raise e, w')
    /\ requests (trace w') = ModelScope.submit_request g prompt :: requests (trace w)
    /\ clock_reads w' = clock_reads w
    /\ sleeps (trace w') = sleeps (trace w)
    /\ logged ERROR (trace w')
       = (if is_RequestException e
          then match exn_response_text e with
               | Some text => [lit "Error Response Content: " ++ text]
               | None => []
               end ++ [lit "Failed to submit task: " ++ exn_msg e]
          else []) ++ logged ERROR (trace w).
Proof.
  destruct w as [hc cr tr]. cbn [http_calls clock_reads trace]. intros Ho.
  submit_encoded g prompt He. exec. rewrite Ho.
  destruct (is_RequestException e); [destruct (exn_response_text e)|];
    eexists; repeat split.
Qed.

Lemma submit_error_status r w :
  http env (http_calls w) (ModelScope.submit_request g prompt) = Reply r ->
  400 <= status_code r < 600 ->
  exists w',
    ModelScope.submit env g prompt w
    = (Raise (Exn HTTPError (resp_http_error r) (Some (resp_text r))), w')
    /\ requests (trace w') = ModelScope.submit_request g prompt :: requests (trace w)
    /\ clock_reads w' = clock_reads w
    /\ sleeps (trace w') = sleeps (trace w)
    /\ logged ERROR (trace w')
       = [lit "Error Response Content: " ++ resp_text r;
          lit "Failed to submit task: " ++ resp_http_error r;
          lit "ModelScope API Error: " ++ py_str env (VInt (status_code r))
          ++ lit " - " ++ resp_text r] ++ logged ERROR (trace w).
Proof.
  destruct w as [hc cr tr]. cbn [http_calls clock_reads trace]. intros Ho Hs.
  submit_encoded g prompt He. exec. rewrite Ho.
  rewrite bool_decide_eq_true_2 by lia.
  replace ((400 <=? status_code r) && (status_code r <? 600)) with true
    by (symmetry; apply andb_true_iff; split; [apply Z.leb_le|apply Z.ltb_lt]; lia).
  cbn [is_RequestException exn_class exn_response_text exn_msg].
  eexists. repeat split.
Qed.
End SubmitFailure.

(** X3: a submission that fails in transport is fatal at once: the exception
    comes back as it is after one request, before the clock is read and
    without a sleep.  A [RequestException] is logged as an error, with the
    text of its response when it has one; another exception is not logged. *)
Theorem submission_transport_failure env g prompt e fuel :
  truthy (ModelScope.api_key g) = true ->
  has_surrogate (ModelScope.model g ++ take ModelScope.MAX_PROMPT_LENGTH prompt) = false ->
  http env 0 (ModelScope.submit_request g (take ModelScope.MAX_PROMPT_LENGTH prompt))
  = Fails e ->
  exists w,
    ModelScope.generate_image env g prompt fuel init_world = (Raise e, w)
    /\ requests (trace w)
       = [ModelScope.submit_request g (take ModelScope.MAX_PROMPT_LENGTH prompt)]
    /\ clock_reads w = 0%nat
    /\ sleeps (trace w) = []
    /\ logged ERROR (trace w)
       = if is_RequestException e
         then match exn_response_text e with
              | Some text => [lit "Error Response Content: " ++ text]
              | None => []
              end ++ [lit "Failed to submit task: " ++ exn_msg e]
         else [].
Proof.
  intros Hk He Ho.
  destruct (generate_image_until_submit env g prompt fuel Hk)
    as (w0 & E & Hc & Hr & Hs & Hq & Hl & _).
  rewrite <- Hc in Ho.
  destruct (submit_transport_failure env g _ He e w0 Ho) as (w & Es & Hq' & Hr' & Hs' & Hl').
  exists w. rewrite E. erewrite bind_raise_run by exact Es.
  rewrite Hq', Hr', Hs', Hl', Hq, Hr, Hs, Hl, app_nil_r. repeat split.
Qed.

Lemma submission_transport_failure_witness :
  exists w,
    ModelScope.generate_image env_offline g0 a_prompt 5 init_world
    = (Raise (mk_exn ConnectionError (lit "Connection refused")), w)
    /\ requests (trace w)
       = [ModelScope.submit_request g0 (take ModelScope.MAX_PROMPT_LENGTH a_prompt)]
    /\ clock_reads w = 0%nat
    /\ sleeps (trace w) = []
    /\ logged ERROR (trace w) = [lit "Failed to submit task: Connection refused"].
Proof.
  apply (submission_transport_failure env_offline g0 a_prompt
           (mk_exn ConnectionError (lit "Connection refused")) 5).
  - reflexivity.
  - vm_compute. reflexivity.
  - reflexivity.
Defined.

(** X4: a submission answered by a client or server error is fatal at once:
    the [HTTPError] of [raise_for_status] comes back after one request, before
    the clock is read and without a sleep, and three errors are logged: the
    status with the text of the response, the failure, and the text of the
    response again. *)
Theorem submission_error_status env g prompt r fuel :
  truthy (ModelScope.api_key g) = true ->
  has_surrogate (ModelScope.model g ++ take ModelScope.MAX_PROMPT_LENGTH prompt) = false ->
  http env 0 (ModelScope.submit_request g (take ModelScope.MAX_PROMPT_LENGTH prompt))
  = Reply r ->
  400 <= status_code r < 600 ->
  exists w,
    ModelScope.generate_image env g prompt fuel init_world
    = (Raise (Exn HTTPError (resp_http_error r) (Some (resp_text r))), w)
    /\ requests (trace w)
       = [ModelScope.submit_request g (take ModelScope.MAX_PROMPT_LENGTH prompt)]
    /\ clock_reads w = 0%nat
    /\ sleeps (trace w) = []
    /\ logged ERROR (trace w)
       = [lit "Error Response Content: " ++ resp_text r;
          lit "Failed to submit task: " ++ resp_http_error r;
          lit "ModelScope API Error: " ++ py_str env (VInt (status_code r))
          ++ lit " - " ++ resp_text r].
Proof.
  intros Hk He Ho Hst.
  destruct (generate_image_until_submit env g prompt fuel Hk)
    as (w0 & E & Hc & Hr & Hs & Hq & Hl & _).
  rewrite <- Hc in Ho.
  destruct (submit_error_status env g _ He r w0 Ho Hst) as (w & Es & Hq' & Hr' & Hs' & Hl').
  exists w. rewrite E. erewrite bind_raise_run by exact Es.
  rewrite Hq', Hr', Hs', Hl', Hq, Hr, Hs, Hl, app_nil_r. repeat split.
Qed.

Lemma submission_error_status_witness :
  exists w,
    ModelScope.generate_image env_unauthorized g0 a_prompt 5 init_world
    = (Raise (Exn HTTPError (resp_http_error unauthorized) (Some (lit "invalid token"))), w)
    /\ requests (trace w)
       = [ModelScope.submit_request g0 (take ModelScope.MAX_PROMPT_LENGTH a_prompt)]
    /\ clock_reads w = 0%nat
    /\ sleeps (trace w) = []
    /\ logged ERROR (trace w)
       = [lit "Error Response Content: invalid token";
          lit "Failed to submit task: " ++ resp_http_error unauthorized;
          lit "ModelScope API Error: 401 - invalid token"].
Proof.
  apply (submission_error_status env_unauthorized g0 a_prompt unauthorized 5).
  - reflexivity.
  - vm_compute. reflexivity.
  - reflexivity.
  - cbn [status_code unauthorized]. lia.
Defined.

(** ** ModelScope: replies that end the polling *)

Section PollMore.
Variable env : Env.
Variable g : ModelScope.generator.
Variable task_id : value.
Variable start : float.

Lemma poll_once_unusable w c :
  timed_out g start (time_time env (clock_reads w)) = false ->
  unusable c (http env (http_calls w) (ModelScope.status_request env g task_id)) ->
  exists e w',
    ModelScope.poll_once env g task_id start w = (Raise e, w')
    /\ exn_class e = c
    /\ http_calls w' = S (http_calls w)
    /\ sleeps (trace w') = sleeps (trace w).
Proof.
  unfold timed_out. destruct w as [hc cr tr]. cbn [http_calls clock_reads trace].
  intros Ht Hu.
  unfold ModelScope.poll_once. exec. rewrite Ht.
  inversion Hu as [r v Hr Hj Hv Ho|r d Hr Hj Hs Hi Ho|r d Hr Hj Hs Hi Ho];
    unfold passes in Hr; rewrite Hr, Hj.
  - destruct v as [| | | | | |d|]; try now destruct (Hv d eq_refl).
    all: cbn [is_RequestException exn_class mk_exn]; do 2 eexists; repeat split.
  - rewrite Hs. cbn [from_option id]. rewrite py_eq_str_refl, Hi.
    cbn [is_RequestException exn_class mk_exn]. do 2 eexists. repeat split.
  - rewrite Hs. cbn [from_option id]. rewrite py_eq_str_refl, Hi.
    cbn [is_RequestException exn_class mk_exn]. do 2 eexists. repeat split.
Qed.

Lemma poll_once_failed_silently w :
  timed_out g start (time_time env (clock_reads w)) = false ->
  failed_silently (http env (http_calls w) (ModelScope.status_request env g task_id)) ->
  exists w',
    ModelScope.poll_once env g task_id start w
    = (Raise (mk_exn RuntimeError (lit "Image generation failed: Unknown error")), w')
    /\ http_calls w' = S (http_calls w)
    /\ sleeps (trace w') = sleeps (trace w).
Proof.
  unfold timed_out. destruct w as [hc cr tr]. cbn [http_calls clock_reads trace].
  intros Ht Hf.
  inversion Hf as [r d Hr Hj Hst Hm Ho].
  unfold ModelScope.poll_once. exec. rewrite Ht.
  rewrite <- Ho. unfold passes in Hr. rewrite Hr, Hj, Hst, Hm. cbn [from_option id].
  replace (py_eq_str (VStr (lit "FAILED")) (lit "SUCCEED")) with false
    by (vm_compute; reflexivity).
  rewrite py_eq_str_refl. eexists. repeat split.
Qed.
End PollMore.

(** X5: a status reply that cannot be used ends the run, it is not polled
    again: a JSON body that is not a dict raises [AttributeError], a "SUCCEED"
    without "output_images" raises [KeyError], and one with an empty list
    raises [IndexError]; none of them is a [RequestException]. *)
Theorem polling_reply_unusable env g prompt task_id n c fuel :
  truthy (ModelScope.api_key g) = true ->
  has_surrogate (ModelScope.model g ++ take ModelScope.MAX_PROMPT_LENGTH prompt) = false ->
  task_created task_id
    (http env 0
       (ModelScope.submit_request g (take ModelScope.MAX_PROMPT_LENGTH prompt))) ->
  (forall k, (k < n)%nat ->
     timed_out g (time_time env 0) (time_time env (1 + k)) = false
     /\ nonterminal (http env (1 + k) (ModelScope.status_request env g task_id))) ->
  timed_out g (time_time env 0) (time_time env (1 + n)) = false ->
  unusable c (http env (1 + n) (ModelScope.status_request env g task_id)) ->
  (n < fuel)%nat ->
  exists e w,
    ModelScope.generate_image env g prompt fuel init_world = (Raise e, w)
    /\ exn_class e = c
    /\ http_calls w = (2 + n)%nat
    /\ sleeps (trace w) = replicate n (ModelScope.polling_interval g).
Proof.
  intros Hk He Hc Hn Ht Hu Hf.
  replace fuel with (n + S (fuel - S n))%nat by lia.
  destruct (generate_image_pending env g prompt task_id n (S (fuel - S n)) Hk He Hc Hn)
    as (w & E & Hh & Hr & Hsl & Hq).
  rewrite E. cbn [while_true].
  destruct (poll_once_unusable env g task_id (time_time env 0) w c)
    as (e & w' & E' & Hcl & Hh' & Hsl').
  { now rewrite Hr. }
  { now rewrite Hh. }
  rewrite E'. exists e, w'. rewrite Hh', Hsl', Hh, Hsl. repeat split. exact Hcl.
Qed.

Lemma polling_reply_unusable_witness :
  exists e w,
    ModelScope.generate_image env_no_images g0 a_prompt 5 init_world = (Raise e, w)
    /\ exn_class e = KeyError
    /\ http_calls w = (2 + 1)%nat
    /\ sleeps (trace w) = replicate 1 (ModelScope.polling_interval g0).
Proof.
  apply (polling_reply_unusable env_no_images g0 a_prompt (VStr (lit "t1")) 1 KeyError 5).
  - reflexivity.
  - vm_compute. reflexivity.
  - vm_compute. econstructor; [reflexivity|reflexivity|vm_compute; reflexivity].
  - intros k Hk. destruct k as [|k]; [|lia].
    split; [vm_compute; reflexivity|].
    vm_compute. eapply nonterminal_status;
      [reflexivity|reflexivity|vm_compute; discriminate|vm_compute; discriminate].
  - vm_compute. reflexivity.
  - vm_compute. eapply unusable_no_images;
      [reflexivity|reflexivity|vm_compute; reflexivity|vm_compute; reflexivity].
  - lia.
Defined.

(** X6: a "FAILED" without the key "message" ends the run with the
    [RuntimeError] "Image generation failed: Unknown error". *)
Theorem polling_task_failed_silently env g prompt task_id n fuel :
  truthy (ModelScope.api_key g) = true ->
  has_surrogate (ModelScope.model g ++ take ModelScope.MAX_PROMPT_LENGTH prompt) = false ->
  task_created task_id
    (http env 0
       (ModelScope.submit_request g (take ModelScope.MAX_PROMPT_LENGTH prompt))) ->
  (forall k, (k < n)%nat ->
     timed_out g (time_time env 0) (time_time env (1 + k)) = false
     /\ nonterminal (http env (1 + k) (ModelScope.status_request env g task_id))) ->
  timed_out g (time_time env 0) (time_time env (1 + n)) = false ->
  failed_silently (http env (1 + n) (ModelScope.status_request env g task_id)) ->
  (n < fuel)%nat ->
  exists w,
    ModelScope.generate_image env g prompt fuel init_world
    = (Raise (mk_exn RuntimeError (lit "Image generation failed: Unknown error")), w)
    /\ http_calls w = (2 + n)%nat
    /\ sleeps (trace w) = replicate n (ModelScope.polling_interval g).
Proof.
  intros Hk He Hc Hn Ht Hu Hf.
  replace fuel with (n + S (fuel - S n))%nat by lia.
  destruct (generate_image_pending env g prompt task_id n (S (fuel - S n)) Hk He Hc Hn)
    as (w & E & Hh & Hr & Hsl & Hq).
  rewrite E. cbn [while_true].
  destruct (poll_once_failed_silently env g task_id (time_time env 0) w)
    as (w' & E' & Hh' & Hsl').
  { now rewrite Hr. }
  { now rewrite Hh. }
  rewrite E'. exists w'. rewrite Hh', Hsl', Hh, Hsl. repeat split.
Qed.

Lemma polling_task_failed_silently_witness :
  exists w,
    ModelScope.generate_image env_failed_silently g0 a_prompt 5 init_world
    = (Raise (mk_exn RuntimeError (lit "Image generation failed: Unknown error")), w)
    /\ http_calls w = (2 + 1)%nat
    /\ sleeps (trace w) = replicate 1 (ModelScope.polling_interval g0).
Proof.
  apply (polling_task_failed_silently env_failed_silently g0 a_prompt (VStr (lit "t1")) 1 5).
  - reflexivity.
  - vm_compute. reflexivity.
  - vm_compute. econstructor; [reflexivity|reflexivity|vm_compute; reflexivity].
  - intros k Hk. destruct k as [|k]; [|lia].
    split; [vm_compute; reflexivity|].
    vm_compute. eapply nonterminal_status;
      [reflexivity|reflexivity|vm_compute; discriminate|vm_compute; discriminate].
  - vm_compute. reflexivity.
  - vm_compute. econstructor;
      [reflexivity|reflexivity|vm_compute; reflexivity|vm_compute; reflexivity].
  - lia.
Defined.



(** ** ModelScope: the timeout is strict *)

Lemma ltb_irrefl x : PrimFloat.ltb x x = false.
Proof.
  rewrite ltb_spec. unfold SFltb.
  destruct (Prim2SF x) as [s|s| |s m e]; simpl; try reflexivity.
  - destruct s; reflexivity.
  - destruct s; rewrite Z.compare_refl, ?Pos.compare_refl; simpl;
      rewrite ?Pos.compare_refl; reflexivity.
Qed.

Lemma timed_out_strict g start t :
  PrimFloat.sub t start = ModelScope.timeout g -> timed_out g start t = false.
Proof. intros H. unfold timed_out. rewrite H. apply ltb_irrefl. Qed.

(** X8: the comparison of line 96 is strict: a poll that reads the clock
    exactly the timeout past the start is not a timeout, and a "SUCCEED" at
    that poll gives the image. *)
Theorem timeout_is_strict env g prompt task_id n url img fuel :
  truthy (ModelScope.api_key g) = true ->
  has_surrogate (ModelScope.model g ++ take ModelScope.MAX_PROMPT_LENGTH prompt) = false ->
  task_created task_id
    (http env 0
       (ModelScope.submit_request g (take ModelScope.MAX_PROMPT_LENGTH prompt))) ->
  (forall k, (k < n)%nat ->
     timed_out g (time_time env 0) (time_time env (1 + k)) = false
     /\ nonterminal (http env (1 + k) (ModelScope.status_request env g task_id))) ->
  PrimFloat.sub (time_time env (1 + n)) (time_time env 0) = ModelScope.timeout g ->
  succeeded url (http env (1 + n) (ModelScope.status_request env g task_id)) ->
  delivers img (http env (2 + n) (ModelScope.image_request url)) ->
  (n < fuel)%nat ->
  exists w,
    ModelScope.generate_image env g prompt fuel init_world = (Ret img, w)
    /\ sleeps (trace w) = replicate n (ModelScope.polling_interval g).
Proof.
  intros Hk He Hc Hn Ht Hs Hd Hf.
  replace fuel with (n + S (fuel - S n))%nat by lia.
  destruct (generate_image_pending env g prompt task_id n (S (fuel - S n)) Hk He Hc Hn)
    as (w & E & Hh & Hr & Hsl & Hq).
  rewrite E. cbn [while_true].
  destruct (poll_once_succeeded env g task_id (time_time env 0) w url img)
    as (w' & E' & _ & Hsl' & _).
  { rewrite Hr. now apply timed_out_strict. }
  { now rewrite Hh. }
  { now rewrite Hh. }
  rewrite E'. exists w'. rewrite Hsl', Hsl. split; reflexivity.
Qed.

Lemma timeout_is_strict_witness :
  exists w,
    ModelScope.generate_image env_on_time g0 a_prompt 1 init_world = (Ret png, w)
    /\ sleeps (trace w) = replicate 0 (ModelScope.polling_interval g0).
Proof.
  apply (timeout_is_strict env_on_time g0 a_prompt (VStr (lit "t1")) 0 (VStr image_url) png 1).
  - reflexivity.
  - vm_compute. reflexivity.
  - vm_compute. econstructor; [reflexivity|reflexivity|vm_compute; reflexivity].
  - intros k Hk. lia.
  - vm_compute. reflexivity.
  - vm_compute. econstructor;
      [reflexivity|reflexivity|vm_compute; reflexivity|vm_compute; reflexivity].
  - vm_compute. econstructor; reflexivity.
  - lia.
Defined.

(** ** ModelScope: the base URL *)

Lemma endswith_slash_snoc s : endswith_slash (s ++ lit "/") = true.
Proof.
  unfold endswith_slash. change (lit "/") with [47%N]. rewrite last_snoc.
  now apply bool_decide_eq_true_2.
Qed.

Lemma slashed_ends_with_slash g : endswith_slash (ModelScope.slashed g) = true.
Proof.
  unfold ModelScope.slashed. destruct (endswith_slash (ModelScope.base_url g)) eqn:E.
  - exact E.
  - apply endswith_slash_snoc.
Qed.

(** X9: the base URL is used with a slash at its end, and a base URL without
    one gives the same requests as that URL with the slash added. *)
Theorem base_url_trailing_slash env g prompt task_id :
  endswith_slash (ModelScope.slashed g) = true
  /\ (endswith_slash (ModelScope.base_url g) = false ->
      let g' := with_base_url g (ModelScope.base_url g ++ lit "/") in
      ModelScope.submit_request g' prompt = ModelScope.submit_request g prompt
      /\ ModelScope.status_request env g' task_id = ModelScope.status_request env g task_id).
Proof.
  split; [apply slashed_ends_with_slash|].
  intros E g'.
  assert (Hs : ModelScope.slashed g' = ModelScope.slashed g).
  { unfold ModelScope.slashed at 1. subst g'. cbn [with_base_url ModelScope.base_url].
    rewrite endswith_slash_snoc. unfold ModelScope.slashed. now rewrite E. }
  unfold ModelScope.submit_request, ModelScope.post_request, ModelScope.status_request.
  rewrite Hs. split; reflexivity.
Qed.

(** ** ModelScope: the body of the submission can be read back *)

Lemma unhex_hex_digit n : (n < 16)%N -> unhex (hex_digit n) = n.
Proof.
  intros H. unfold unhex, hex_digit.
  destruct (N.ltb_spec n 10).
  - destruct (N.ltb_spec (48 + n) 58); lia.
  - destruct (N.ltb_spec (87 + n) 58); lia.
Qed.

Lemma json_unescape_escape c x :
  json_unescape_head (json_escape_char c ++ x) = Some (c, x).
Proof.
  unfold json_escape_char.
  repeat (match goal with
          | |- context [(c =? ?k)%N] => destruct (N.eqb_spec c k) as [->|?]; [reflexivity|]
          end).
  destruct (N.ltb_spec c 32) as [Hc|Hc].
  - cbn [app json_unescape_head hex4 N.eqb Pos.eqb].
    rewrite !unhex_hex_digit by (apply N.mod_lt; lia).
    do 2 f_equal.
    rewrite (N.div_small c 4096), (N.div_small c 256) by lia.
    rewrite (N.mod_small (c / 16) 16).
    2:{ apply N.Div0.div_lt_upper_bound. lia. }
    change (0 mod 16)%N with 0%N.
    rewrite (N.div_mod c 16) at 3 by lia. lia.
  - cbn [app json_unescape_head].
    destruct (N.eqb_spec c 92); [contradiction|reflexivity].
Qed.

Lemma json_escape_head c x : exists h t, json_escape_char c ++ x = h :: t /\ h <> 34%N.
Proof.
  unfold json_escape_char.
  repeat (match goal with
          | |- context [(c =? ?k)%N] =>
              destruct (N.eqb_spec c k) as [->|?];
              [do 2 eexists; split; [reflexivity|discriminate]|]
          end).
  destruct (N.ltb_spec c 32) as [Hc|Hc]; do 2 eexists; (split; [reflexivity|]);
    [discriminate|assumption].
Qed.

(** An escaped string followed by a quote can be read back in one way. *)
Lemma json_escaped_inj s1 : forall s2 r1 r2,
  flat_map json_escape_char s1 ++ 34%N :: r1 = flat_map json_escape_char s2 ++ 34%N :: r2 ->
  s1 = s2 /\ r1 = r2.
Proof.
  induction s1 as [|c1 s1 IH]; intros [|c2 s2] r1 r2 H; cbn [flat_map] in H.
  - injection H as ->. split; reflexivity.
  - exfalso. rewrite <- app_assoc in H.
    destruct (json_escape_head c2 (flat_map json_escape_char s2 ++ 34%N :: r2))
      as (h & t & E & Hh).
    rewrite E in H. injection H as H _. congruence.
  - exfalso. rewrite <- app_assoc in H.
    destruct (json_escape_head c1 (flat_map json_escape_char s1 ++ 34%N :: r1))
      as (h & t & E & Hh).
    rewrite E in H. injection H as H _. congruence.
  - rewrite <- !app_assoc in H.
    apply (f_equal json_unescape_head) in H.
    rewrite !json_unescape_escape in H. injection H as -> H.
    destruct (IH _ _ _ H) as [-> ->]. split; reflexivity.
Qed.

Lemma json_dumps_payload_inj g1 g2 p1 p2 :
  json_dumps (ModelScope.payload g1 p1) = json_dumps (ModelScope.payload g2 p2) ->
  ModelScope.model g1 = ModelScope.model g2 /\ p1 = p2.
Proof.
  unfold json_dumps, ModelScope.payload, json_string.
  cbn [map join fst snd]. intros H.
  rewrite <- !app_assoc in H.
  repeat (apply app_inv_head in H || (injection H as H)).
  cbn [app] in H.
  apply json_escaped_inj in H as [Hm H].
  split; [exact Hm|].
  repeat (apply app_inv_head in H || (injection H as H)).
  cbn [app] in H.
  apply json_escaped_inj in H as [Hp _]. exact Hp.
Qed.

Lemma to_N_byte_of n : (n < 256)%N -> Byte.to_N (byte_of n) = n.
Proof.
  intros H. unfold byte_of.
  destruct (Byte.of_N n) as [b|] eqn:E.
  - cbn [from_option id]. now apply Byte.to_of_N.
  - apply Byte.of_N_None_iff in E. lia.
Qed.

Lemma utf8_head_char c x :
  (c < 0x110000)%N -> utf8_head (utf8_char c ++ x) = Some (c, x).
Proof.
  intros Hc. unfold utf8_char.
  pose proof (N.div_mod c 64 ltac:(lia)) as E0.
  pose proof (N.mod_lt c 64 ltac:(lia)) as L0.
  pose proof (N.div_mod (c / 64) 64 ltac:(lia)) as E1.
  pose proof (N.mod_lt (c / 64) 64 ltac:(lia)) as L1.
  pose proof (N.div_mod (c / 64 / 64) 64 ltac:(lia)) as E2.
  pose proof (N.mod_lt (c / 64 / 64) 64 ltac:(lia)) as L2.
  replace (c / 4096)%N with (c / 64 / 64)%N by (rewrite N.Div0.div_div; reflexivity).
  replace (c / 262144)%N with (c / 64 / 64 / 64)%N
    by (rewrite !N.Div0.div_div; reflexivity).
  set (r0 := (c mod 64)%N) in *.
  set (q1 := (c / 64)%N) in *.
  set (r1 := (q1 mod 64)%N) in *.
  set (q2 := (q1 / 64)%N) in *.
  set (r2 := (q2 mod 64)%N) in *.
  set (q3 := (q2 / 64)%N) in *.
  destruct (N.ltb_spec c 0x80); [|destruct (N.ltb_spec c 0x800);
                                   [|destruct (N.ltb_spec c 0x10000)]];
    cbn [app utf8_head]; rewrite !to_N_byte_of by lia;
    repeat match goal with
           | |- context [(?a <? ?b)%N] => destruct (N.ltb_spec a b); try lia
           end;
    do 2 f_equal; lia.
Qed.

Lemma utf8_bytes_inj s1 : forall s2,
  is_text s1 -> is_text s2 -> utf8_bytes s1 = utf8_bytes s2 -> s1 = s2.
Proof.
  unfold utf8_bytes, is_text.
  induction s1 as [|c1 s1 IH]; intros [|c2 s2] H1 H2 H; cbn [flat_map] in H.
  - reflexivity.
  - apply Forall_cons_1 in H2 as [Hc _].
    apply (f_equal utf8_head) in H. rewrite utf8_head_char in H by exact Hc. discriminate.
  - apply Forall_cons_1 in H1 as [Hc _].
    apply (f_equal utf8_head) in H. rewrite utf8_head_char in H by exact Hc. discriminate.
  - apply Forall_cons_1 in H1 as [Hc1 H1]. apply Forall_cons_1 in H2 as [Hc2 H2].
    apply (f_equal utf8_head) in H. rewrite !utf8_head_char in H by assumption.
    injection H as -> H. f_equal. now apply IH.
Qed.

Lemma hex_digit_small n : (n < 16)%N -> (hex_digit n < 0x110000)%N.
Proof. intros H. unfold hex_digit. destruct (n <? 10)%N; lia. Qed.

Lemma json_escape_char_text c : (c < 0x110000)%N -> is_text (json_escape_char c).
Proof.
  intros Hc. unfold json_escape_char, is_text, hex4.
  repeat case_match; repeat constructor; try assumption;
    apply hex_digit_small, N.mod_lt; lia.
Qed.

Lemma json_string_text s : is_text s -> is_text (json_string s).
Proof.
  intros H. unfold json_string, is_text.
  apply Forall_app; split; [repeat constructor|].
  apply Forall_app; split; [|repeat constructor].
  apply Forall_flat_map. eapply Forall_impl; [exact H|].
  intros c Hc. now apply json_escape_char_text.
Qed.

Lemma is_text_forallb (s : str) :
  forallb (fun c => (c <? 0x110000)%N) s = true -> is_text s.
Proof.
  intros H. apply List.Forall_forall. intros c Hc.
  rewrite forallb_forall in H. apply N.ltb_lt, H, Hc.
Qed.

Lemma json_dumps_payload_text g p :
  is_text (ModelScope.model g) -> is_text p -> is_text (json_dumps (ModelScope.payload g p)).
Proof.
  intros Hm Hp. unfold json_dumps, ModelScope.payload. cbn [map join fst snd].
  unfold is_text. rewrite !Forall_app.
  repeat split;
    first [ apply json_string_text; first [assumption | apply is_text_forallb; reflexivity]
          | apply is_text_forallb; reflexivity ].
Qed.

(** X10: the body of the submission determines the model and the prompt: the
    escaping of line 76 loses nothing, and no prompt can pass for another
    model or another prompt. *)
Theorem body_determines_model_and_prompt g1 g2 p1 p2 :
  is_text (ModelScope.model g1) -> is_text p1 ->
  is_text (ModelScope.model g2) -> is_text p2 ->
  req_data (ModelScope.submit_request g1 p1) = req_data (ModelScope.submit_request g2 p2) ->
  ModelScope.model g1 = ModelScope.model g2 /\ p1 = p2.
Proof.
  intros Hm1 Hp1 Hm2 Hp2 H.
  unfold ModelScope.submit_request, ModelScope.post_request in H. cbn [req_data] in H.
  apply (inj Some) in H.
  apply utf8_bytes_inj in H; [|now apply json_dumps_payload_text..].
  now apply json_dumps_payload_inj.
Qed.

Lemma body_determines_model_and_prompt_witness :
  ModelScope.model g0 = ModelScope.model g0 /\ a_prompt = a_prompt.
Proof.
  apply (body_determines_model_and_prompt g0 g0 a_prompt a_prompt).
  - apply is_text_forallb. reflexivity.
  - apply is_text_forallb. reflexivity.
  - apply is_text_forallb. reflexivity.
  - apply is_text_forallb. reflexivity.
  - reflexivity.
Defined.

(** ** Replicate: dimensions, input and outcome *)

(** X11: every pair of dimensions is positive, a multiple of 64 and of at most
    1024 x 1024 pixels. *)
Theorem dimensions_fit_the_model (r : str) :
  let d := Replicate._get_dimensions r in
  0 < d.1 /\ 0 < d.2
  /\ d.1 mod 64 = 0 /\ d.2 mod 64 = 0
  /\ d.1 * d.2 <= 1024 * 1024.
Proof.
  destruct (decide (r ∈ table_keys)) as [Hin|Hout].
  - unfold table_keys in Hin. rewrite !elem_of_cons, elem_of_nil in Hin.
    destruct Hin as [->|[->|[->|[->|[->|[]]]]]]; vm_compute; repeat split; discriminate.
  - rewrite (get_dimensions_unknown r Hout). vm_compute. repeat split; discriminate.
Qed.

(** X12: the aspect ratios the generator advertises are the keys of the table
    of [_get_dimensions], each listed once: none of them falls back to the
    default. *)
Theorem supported_ratios_are_the_table g (r : str) :
  (r ∈ Replicate.get_supported_aspect_ratios g <-> is_Some (Replicate.ratios !! r))
  /\ NoDup (Replicate.get_supported_aspect_ratios g).
Proof.
  split; [apply table_keys_spec|].
  unfold Replicate.get_supported_aspect_ratios.
  repeat (apply NoDup_cons_2;
          [rewrite ?not_elem_of_cons; repeat split; try discriminate; apply not_elem_of_nil|]).
  apply NoDup_nil_2.
Qed.

Lemma download_image_outcome env url w :
  trace (snd (Replicate._download_image env url w))
  = EvHttp (download_request url)
    :: EvLog INFO (lit "下载图片: " ++ take 100 url ++ lit "...") :: trace w
  /\ ((exists img, fst (Replicate._download_image env url w) = Ret img)
      \/ (exists m, fst (Replicate._download_image env url w)
                    = Raise (mk_exn PlainException m))).
Proof.
  destruct w as [hc cr tr]. unfold Replicate._download_image, download_request. exec.
  destruct (http env hc _) as [r|e]; [destruct (bool_decide (status_code r = 200))|];
    (split; [reflexivity|]); eauto.
Qed.

Lemma replicate_outcome env g prompt aspect_ratio kwargs :
  replicate_installed env = true ->
  let dims := Replicate._get_dimensions (default (lit "3:4") aspect_ratio) in
  exists res w,
    Replicate.generate_image env g prompt aspect_ratio kwargs init_world = (res, w)
    /\ ((exists img, res = Ret img) \/ (exists m, res = Raise (mk_exn RuntimeError m)))
    /\ model_calls (trace w)
       = [(Replicate.api_key g, Replicate.model g,
           Replicate.input_params g prompt dims.1 dims.2 kwargs)]
    /\ (length (requests (trace w)) <= 1)%nat.
Proof.
  intros Hi. unfold Replicate.generate_image. rewrite Hi. cbn [negb].
  destruct (Replicate._get_dimensions _) as [wd ht]. cbn [fst snd].
  unfold init_world. unfold bind at 1. cbn [log emit http_calls clock_reads trace].
  unfold try_except at 1, bind at 1, run_model.
  destruct (client_run env _ _ _) as [e|output]; cbn [http_calls clock_reads trace].
  { exec. do 2 eexists. split; [reflexivity|].
    split; [right; eauto|]. split; [reflexivity|]. cbn. lia. }
  unfold bind at 1.
  set (w0 := World 0 0 _).
  assert (Hfirst : exists r, (match output with
                              | VList _ => py_first output
                              | _ => ret output
                              end) w0 = (r, w0) /\ r <> Spin).
  { destruct output as [| | | | |[|x l]| |]; eexists; (split; [reflexivity|discriminate]). }
  destruct Hfirst as (r & -> & Hr).
  destruct r as [u|e|]; [| |contradiction].
  - destruct (download_image_outcome env (py_str env u) w0) as (Ht & Hres).
    destruct (Replicate._download_image env (py_str env u) w0) as [res w1].
    cbn [fst snd] in *.
    destruct Hres as [[img ->]|[m ->]].
    + do 2 eexists. split; [reflexivity|]. rewrite Ht.
      split; [left; eauto|]. split; [reflexivity|]. cbn. lia.
    + unfold bind, log, emit, raise. do 2 eexists. split; [reflexivity|].
      cbn [trace]. rewrite Ht.
      split; [right; eauto|]. split; [reflexivity|]. cbn. lia.
  - exec. do 2 eexists. split; [reflexivity|].
    split; [right; eauto|]. split; [reflexivity|]. cbn. lia.
Qed.

(** X13: without the [replicate] package a run raises [ImportError] and does
    nothing else.  With the package, whatever the key, [client.run] is called
    exactly once, with the key, the model and [input_params] at the dimensions
    of the aspect ratio; at most one HTTP request follows, and the run gives
    the image or a [RuntimeError]. *)
Theorem replicate_all_or_nothing env g prompt aspect_ratio kwargs :
  let dims := Replicate._get_dimensions (default (lit "3:4") aspect_ratio) in
  let run := Replicate.generate_image env g prompt aspect_ratio kwargs init_world in
  (replicate_installed env = false ->
     run = (Raise (mk_exn ImportError (lit "Replicate package not installed")), init_world))
  /\ (replicate_installed env = true ->
      ((exists img, fst run = Ret img)
       \/ (exists m, fst run = Raise (mk_exn RuntimeError m)))
      /\ model_calls (trace (snd run))
         = [(Replicate.api_key g, Replicate.model g,
             Replicate.input_params g prompt dims.1 dims.2 kwargs)]
      /\ (length (requests (trace (snd run))) <= 1)%nat).
Proof.
  intros dims run. split; intros Hi.
  - subst run. unfold Replicate.generate_image. now rewrite Hi.
  - destruct (replicate_outcome env g prompt aspect_ratio kwargs Hi)
      as (res & w & E & H1 & H2 & H3).
    subst run. rewrite E. auto.
Qed.

(** X14: an empty list from the model is a failure of the run: the
    [IndexError] of [output[0]] comes back as a [RuntimeError] and nothing is
    downloaded. *)
Theorem replicate_empty_output env g prompt aspect_ratio kwargs :
  replicate_installed env = true ->
  (let dims := Replicate._get_dimensions (default (lit "3:4") aspect_ratio) in
   client_run env (Replicate.api_key g) (Replicate.model g)
     (Replicate.input_params g prompt dims.1 dims.2 kwargs) = inr (VList [])) ->
  let run := Replicate.generate_image env g prompt aspect_ratio kwargs init_world in
  fst run = Raise (mk_exn RuntimeError (lit "图片生成失败: " ++ lit "list index out of range"))
  /\ requests (trace (snd run)) = [].
Proof.
  intros Hi. unfold Replicate.generate_image. rewrite Hi. cbn [negb].
  destruct (Replicate._get_dimensions _) as [wd ht]. cbn [fst snd].
  intros Ho. unfold init_world. exec. rewrite Ho. split; reflexivity.
Qed.

Lemma replicate_empty_output_witness :
  let run := Replicate.generate_image env_empty_output
               (Replicate.init (Some (lit "r8_test")) None) a_prompt None ∅ init_world in
  fst run = Raise (mk_exn RuntimeError (lit "图片生成失败: " ++ lit "list index out of range"))
  /\ requests (trace (snd run)) = [].
Proof.
  apply (replicate_empty_output env_empty_output
           (Replicate.init (Some (lit "r8_test")) None) a_prompt None ∅).
  - reflexivity.
  - reflexivity.
Defined.

(** X15: the input of the model: the prompt, the dimensions and the format
    are fixed; the steps and the guidance are the keyword arguments "steps"
    and "guidance" or the defaults of the generator; "seed" is there exactly
    when it is given; no other keyword argument is passed on. *)
Theorem input_params_lookup g prompt width height kwargs :
  let input := Replicate.input_params g prompt width height kwargs in
  input !! lit "prompt" = Some (VStr prompt)
  /\ input !! lit "width" = Some (VInt width)
  /\ input !! lit "height" = Some (VInt height)
  /\ input !! lit "output_format" = Some (VStr (lit "png"))
  /\ input !! lit "num_inference_steps"
     = Some (default (VInt (Replicate.default_steps g)) (kwargs !! lit "steps"))
  /\ input !! lit "guidance_scale"
     = Some (default (VFloat (Replicate.default_guidance g)) (kwargs !! lit "guidance"))
  /\ input !! lit "seed" = kwargs !! lit "seed"
  /\ (forall k : str, k ∉ input_keys -> input !! k = None).
Proof.
  intros input. subst input. unfold Replicate.input_params.
  assert (Hk : forall k : str, k ∉ input_keys ->
               k ≠ lit "prompt" /\ k ≠ lit "width" /\ k ≠ lit "height"
               /\ k ≠ lit "num_inference_steps" /\ k ≠ lit "guidance_scale"
               /\ k ≠ lit "output_format" /\ k ≠ lit "seed").
  { intros k. unfold input_keys. rewrite !not_elem_of_cons. tauto. }
  destruct (kwargs !! lit "seed") as [seed|];
    repeat split;
    try (intros k Hn; destruct (Hk k Hn) as (H1 & H2 & H3 & H4 & H5 & H6 & H7));
    repeat first
      [ rewrite lookup_insert_eq
      | rewrite lookup_insert_ne by (first [discriminate | congruence])
      | rewrite lookup_singleton_eq
      | rewrite lookup_singleton_ne by (first [discriminate | congruence]) ];
    reflexivity.
Qed.

(** ** Replicate: the download *)

(** X16: [_download_image] sends one request and gives the content of the
    response exactly when its status is 200; any other status, also another
    success status, is a failure. *)
Theorem download_image_accepts_only_200 env url w img :
  let run := Replicate._download_image env url w in
  (fst run = Ret img
   <-> exists r, http env (http_calls w) (download_request url) = Reply r
                 /\ status_code r = 200 /\ resp_content r = img)
  /\ requests (trace (snd run)) = download_request url :: requests (trace w)
  /\ http_calls (snd run) = S (http_calls w).
Proof.
  destruct w as [hc cr tr]. unfold Replicate._download_image, download_request.
  cbn [http_calls]. exec.
  destruct (http env hc _) as [r|e].
  - destruct (bool_decide (status_code r = 200)) eqn:E.
    + apply bool_decide_eq_true_1 in E. cbn [fst snd trace http_calls].
      split; [|split; reflexivity]. split.
      * intros [= <-]. exists r. auto.
      * intros (r' & [= <-] & _ & <-). reflexivity.
    + apply bool_decide_eq_false_1 in E. cbn [fst snd trace http_calls].
      split; [|split; reflexivity]. split; [discriminate|].
      intros (r' & [= <-] & H & _). contradiction.
  - cbn [fst snd trace http_calls]. split; [|split; reflexivity].
    split; [discriminate|]. intros (r' & [=] & _).
Qed.
